(** * aeb-monitor: Canadian Tire stock checker (src/main.ts)

    A shallow embedding of the stock checker and of the properties its
    specification states about it.  The program is a Deno script: it loads
    [config.json], polls stocktrack.ca, and mails (or prints) an alert when a
    store has stock.

    Conventions of the embedding:
    - asynchronous functions are computations in a small monad [M] that
      threads the objects the function received by reference, records every
      call into the platform (console, network, file system, processes) in a
      trace, and ends either normally or with a thrown error;
    - what the platform answers comes from a record [Deno] of oracles;
    - JavaScript numbers are kept abstract behind the interface [JSNumber]:
      the program only copies them, tests them and prints them.

    The repository holds two versions of the script, [src/main.ts] and an
    earlier one ([src/unnamed/part_000]).  They are textually equal except for
    the SMTP branch of [sendNotification]; both branches are embedded. *)

From Stdlib Require Import String Ascii List NArith Bool Lia DecimalString.
Import ListNotations.
Open Scope string_scope.

Set Implicit Arguments.
Set Warnings "-register-all".

(* ================================================================= *)
(** ** JavaScript strings *)

(** The line feed and the double quote, which string literals cannot hold. *)
Definition nl : string := String (ascii_of_nat 10) EmptyString.
Definition dq : string := String (ascii_of_nat 34) EmptyString.

(** [ToBoolean] on a string: only the empty string is falsy. *)
Definition str_truthy (s : string) : bool :=
  match s with EmptyString => false | String _ _ => true end.

(** [a || b] on strings. *)
Definition str_or (a b : string) : string :=
  if str_truthy a then a else b.

(** [ToBoolean] on a property that may be [undefined]. *)
Definition opt_truthy (a : option string) : bool :=
  match a with Some s => str_truthy s | None => false end.

(** [a || b] where [a] may be [undefined] and [b] is a string. *)
Definition opt_or (a : option string) (b : string) : string :=
  match a with Some s => str_or s b | None => b end.

(** [Array.prototype.join]. *)
Fixpoint join (sep : string) (l : list string) : string :=
  match l with
  | [] => EmptyString
  | [x] => x
  | x :: rest => x ++ sep ++ join sep rest
  end.

(** [String.prototype.includes]. *)
Fixpoint includes (needle hay : string) : bool :=
  if prefix needle hay then true
  else match hay with
       | EmptyString => false
       | String _ hay' => includes needle hay'
       end.

(** [needle] occurs in [hay]. *)
Definition Substring (needle hay : string) : Prop :=
  exists pre post, hay = pre ++ needle ++ post.

(** Decimal rendering of a natural number, as [`${n}`] prints an integer. *)
Definition N_toString (n : N) : string := NilZero.string_of_uint (N.to_uint n).

(** A decimal digit. *)
Definition is_digit (c : ascii) : bool :=
  match c with
  | "0" | "1" | "2" | "3" | "4" | "5" | "6" | "7" | "8" | "9" => true
  | _ => false
  end%char.

(** [s] is a number in fixed notation with exactly two decimal places: an
    integer part without a point, one point, two digits. *)
Definition TwoDecimals (s : string) : Prop :=
  exists (int : string) (d1 d2 : ascii),
    s = int ++ "." ++ String d1 (String d2 EmptyString) /\
    includes "." int = false /\
    is_digit d1 = true /\ is_digit d2 = true.

(* ================================================================= *)
(** ** JavaScript numbers *)

(** The operations the script applies to a [number].  [Quantity], [Price] and
    [port] are IEEE doubles at run time; the script never does arithmetic on
    them, so the interface lists the literal [0], the two tests and the two
    printers it uses.  Of the printers it records what ECMAScript fixes for
    [toFixed(2)]: fixed notation with exactly two decimal places for every
    finite number below 1e21 in magnitude (from 1e21 on, and for [Infinity],
    [toFixed] prints as [toString] does). *)
Class JSNumber (number : Type) := {
  num_zero : number;                    (* the literal [0] *)
  num_gt0 : number -> bool;             (* [x > 0] *)
  num_truthy : number -> bool;          (* [ToBoolean x]: false on 0 and NaN *)
  num_toString : number -> string;      (* [`${x}`] *)
  num_toFixed2 : number -> string;      (* [x.toFixed(2)] *)
  num_fixed_range : number -> bool;     (* [isFinite(x) && Math.abs(x) < 1e21] *)
  num_zero_gt0 : num_gt0 num_zero = false;
  num_zero_truthy : num_truthy num_zero = false;
  num_toFixed2_decimals :
    forall x, num_fixed_range x = true -> TwoDecimals (num_toFixed2 x)
}.

(** A concrete model for running the script on examples: the non-negative
    decimals with at most two fraction digits and at most fifteen
    significant digits, stored as hundredths.  Such a decimal is printed by
    JavaScript as it is written, in fixed notation below 1e21 and in
    exponent notation from 1e21 on, and so do the printers below. *)
Module Hundredths.

Definition two_digits (n : N) : string :=
  N_toString (n / 10) ++ N_toString (n mod 10).

(** 1e21, in hundredths. *)
Definition exponent_threshold : N := 100000000000000000000000%N.

(** The digits of a numeral without its trailing zeros. *)
Fixpoint significant (s : string) : string :=
  match s with
  | EmptyString => EmptyString
  | String c rest =>
      match significant rest with
      | EmptyString => if (c =? "0")%char then EmptyString else String c EmptyString
      | kept => String c kept
      end
  end.

(** Exponent notation, for values from 1e21 on: the first significant
    digit, the others after a point if there are any, and the decimal
    exponent; [h] written in decimal has two digits more than the integer
    part of the value. *)
Definition exponential (h : N) : string :=
  let numeral := N_toString h in
  let exponent := N.of_nat (String.length numeral - 3) in
  match significant numeral with
  | String d EmptyString => String d EmptyString ++ "e+" ++ N_toString exponent
  | String d others => String d EmptyString ++ "." ++ others ++ "e+" ++ N_toString exponent
  | EmptyString => EmptyString
  end.

Definition toFixed2 (h : N) : string :=
  if (h <? exponent_threshold)%N
  then N_toString (h / 100) ++ "." ++ two_digits (h mod 100)
  else exponential h.

Definition toString (h : N) : string :=
  if (h <? exponent_threshold)%N then
    let f := (h mod 100)%N in
    if (f =? 0)%N then N_toString (h / 100)
    else if (f mod 10 =? 0)%N then N_toString (h / 100) ++ "." ++ N_toString (f / 10)
    else N_toString (h / 100) ++ "." ++ two_digits f
  else exponential h.

#[global] Instance number : JSNumber N.
Proof.
  refine {| num_zero := 0%N;
            num_gt0 := fun h => (0 <? h)%N;
            num_truthy := fun h => negb (h =? 0)%N;
            num_toString := toString;
            num_toFixed2 := toFixed2;
            num_fixed_range := fun h => (h <? exponent_threshold)%N;
            num_zero_gt0 := eq_refl;
            num_zero_truthy := eq_refl;
            num_toFixed2_decimals := _ |}.
  intros h Hrange. unfold toFixed2. rewrite Hrange.
  assert (Hdigit : forall k, (k < 10)%N ->
            exists c, N_toString k = String c EmptyString /\ is_digit c = true).
  { intros k Hk. destruct k as [|p]; [now exists "0"%char|].
    do 4 (destruct p as [p|p|]; try lia;
          try (eexists; split; [reflexivity | reflexivity])). }
  assert (Hpoint : forall d, includes "." (NilEmpty.string_of_uint d) = false).
  { induction d; [reflexivity | | | | | | | | | |]; exact IHd. }
  assert (Hint : forall n, includes "." (N_toString n) = false).
  { intros n. unfold N_toString, NilZero.string_of_uint.
    destruct (N.to_uint n) eqn:E; try reflexivity; rewrite <- E; apply Hpoint. }
  destruct (Hdigit (h mod 100 / 10)%N) as (d1 & Hd1 & Hd1').
  { apply N.Div0.div_lt_upper_bound.
    assert ((h mod 100 < 100)%N) by (apply N.mod_lt; discriminate). lia. }
  destruct (Hdigit (h mod 100 mod 10)%N) as (d2 & Hd2 & Hd2').
  { apply N.mod_lt; discriminate. }
  exists (N_toString (h / 100)), d1, d2.
  unfold two_digits. rewrite Hd1, Hd2. repeat split; auto.
Defined.

(** [of_int n] is the integer [n]; [of_cents d c] is [d.c] with [c] the
    two fraction digits. *)
Definition of_int (n : N) : N := (n * 100)%N.
Definition of_cents (d c : N) : N := (d * 100 + c)%N.

End Hundredths.

(* ================================================================= *)
(** ** Errors, outcomes and the trace of platform calls *)

(** A JavaScript error object: its [name] and its [message]. *)
Record error := mkError { error_name : string; error_message : string }.

(** [new Error(message)]. *)
Definition new_Error (message : string) : error := mkError "Error" message.

(** [String(error)], that is [Error.prototype.toString]. *)
Definition String_error (e : error) : string :=
  if negb (str_truthy (error_name e)) then error_message e
  else if negb (str_truthy (error_message e)) then error_name e
  else error_name e ++ ": " ++ error_message e.

(** How an awaited call ends. *)
Inductive outcome (A : Type) : Type :=
| Returned (a : A)
| Thrown (e : error).
Arguments Returned {A} a.
Arguments Thrown {A} e.

(** The calls the script makes into the platform, in the order made. *)
Inductive event : Type :=
| ConsoleLog (line : string)
| ConsoleError (label : string) (e : error)
| ReadTextFile (path : string)
| Fetch (url : string) (headers : list (string * string))
| ResponseJson
| MakeTempFile
| WriteTextFile (path content : string)
| CommandSpawn (cmd : string) (args : list string)
| StdinWrite (content : string)
| StdinClose
| ProcessOutput
| CommandOutput (cmd : string) (args : list string)
| Remove (path : string).

(* ================================================================= *)
(** ** The monad of the embedding *)

(** What a computation leaves behind: the objects it was given, as they are
    when it ends; the platform calls it made; how it ended. *)
Record Res (S A : Type) : Type := mkRes {
  final : S;
  trace : list event;
  result : outcome A
}.

Definition M (S A : Type) : Type := S -> Res S A.

Definition ret {S A} (a : A) : M S A :=
  fun s => mkRes s [] (Returned a).

Definition throw {S A} (e : error) : M S A :=
  fun s => mkRes s [] (Thrown e).

Definition bind {S A B} (m : M S A) (k : A -> M S B) : M S B :=
  fun s =>
    let r := m s in
    match result r with
    | Returned a =>
        let r' := k a (final r) in
        mkRes (final r') (trace r ++ trace r') (result r')
    | Thrown e => mkRes (final r) (trace r) (Thrown e)
    end.

Notation "x <- m ;; k" := (bind m (fun x => k))
  (at level 61, m at next level, right associativity).
Notation "m ;; k" := (bind m (fun _ => k))
  (at level 61, right associativity).

(** A call that leaves no mark on the trace (a pure library function that
    may throw). *)
Definition eval {S A} (answer : outcome A) : M S A :=
  fun s => mkRes s [] answer.

(** Read the objects the function holds references to. *)
Definition get {S} : M S S :=
  fun s => mkRes s [] (Returned s).

(** [try { body } catch (error) { handler }]. *)
Definition try_catch {S A} (body : M S A) (handler : error -> M S A) : M S A :=
  fun s =>
    let r := body s in
    match result r with
    | Returned a => r
    | Thrown e =>
        let r' := handler e (final r) in
        mkRes (final r') (trace r ++ trace r') (result r')
    end.

(** [try { body } finally { fin }]: [fin] always runs; if it throws, its
    error wins, otherwise the outcome of [body] stands. *)
Definition try_finally {S A} (body : M S A) (fin : M S unit) : M S A :=
  fun s =>
    let r := body s in
    let r' := fin (final r) in
    mkRes (final r') (trace r ++ trace r')
      match result r' with
      | Returned _ => result r
      | Thrown e => Thrown e
      end.

(** [if (c) { m }] with no else branch. *)
Definition when {S} (c : bool) (m : M S unit) : M S unit :=
  if c then m else ret tt.

(** [for (const x of l) { body x }]. *)
Fixpoint for_of {S A} (l : list A) (body : A -> M S unit) : M S unit :=
  match l with
  | [] => ret tt
  | x :: rest => body x ;; for_of rest body
  end.

(** A call into the platform: it is recorded, and the oracle's answer is its
    outcome. *)
Definition platform {S A} (ev : event) (answer : outcome A) : M S A :=
  fun s => mkRes s [ev] answer.

Definition console_log {S} (line : string) : M S unit :=
  platform (ConsoleLog line) (Returned tt).

Definition console_error {S} (label : string) (e : error) : M S unit :=
  platform (ConsoleError label e) (Returned tt).

(** Run a callee that receives one more object, [x], by reference. *)
Definition call_with {S T A} (x : T) (m : M (S * T) A) : M S A :=
  fun s =>
    let r := m (s, x) in
    mkRes (fst (final r)) (trace r) (result r).

(* ================================================================= *)
(** ** Data model (the interfaces of main.ts) *)

Section DataModel.

Variable number : Type.

(** interface StoreStock *)
Record StoreStock : Type := mkStoreStock {
  store : string;
  quantity : number;
  name : option string;
  location : option string;
  price : option number
}.

(** interface StockResponse; its fields carry the prefix [sr_] because
    [stores], [sku] and [name] are taken. *)
Record StockResponse : Type := mkStockResponse {
  sr_stores : list StoreStock;
  sr_sku : string;
  sr_name : option string
}.

(** The [Location] object of a record of the service. *)
Record ItemLocation : Type := mkItemLocation { Aisle : string }.

(** interface StockTrackItem: the fields the script reads.  The other
    fields of the interface ([min_ago], [SKU], [CheckDigit], [Product],
    [PartNumber], [Promo], [SaveStory], [Corporate], [isOnline]) are never
    read. *)
Record StockTrackItem : Type := mkStockTrackItem {
  Store : string;
  Price : number;
  Quantity : number;
  Description : string;
  Location : option ItemLocation
}.

(** interface EmailConfig.  [host] and [port] are declared required, but
    the script tests them at send time, so they may be absent here. *)
Record EmailConfig : Type := mkEmailConfig {
  provider : string;
  host : option string;
  port : option number;
  username : option string;
  password : option string;
  fromEmail : string;
  fromName : option string
}.

(** interface Config *)
Record Config : Type := mkConfig {
  email : string;
  checkIntervalMinutes : number;
  stores : list string;
  sku : string;
  emailConfig : EmailConfig
}.

(** The value [JSON.parse] produces. *)
Inductive json : Type :=
| JNull
| JBool (b : bool)
| JNum (n : number)
| JStr (s : string)
| JArr (elems : list json)
| JObj (members : list (string * json)).

(** The [Response] of [fetch]: its status, and what [response.json()]
    yields: a thrown decode error, [null] ([None]) or the array of
    records.  The cast [as StockTrackItem[]] is trusted, as in the
    source. *)
Record Response : Type := mkResponse {
  status : N;
  json_body : outcome (option (list StockTrackItem))
}.

(** [response.ok]: the status is in the range 200-299. *)
Definition Response_ok (r : Response) : bool :=
  ((200 <=? status r) && (status r <=? 299))%N.

(** The argument of [sendSmtpEmail]. *)
Record SmtpOptions : Type := mkSmtpOptions {
  o_host : option string;
  o_port : option number;
  o_username : option string;
  o_password : option string;
  o_from : string;
  o_to : string;
  o_subject : string;
  o_text : string;
  o_html : option string
}.

(** What the platform answers.  Each field is the outcome of the call of
    the same name. *)
Record Deno : Type := mkDeno {
  Deno_readTextFile : string -> outcome string;
  JSON_parse : string -> outcome json;
  fetch : string -> list (string * string) -> outcome Response;
  Date_toLocaleString : string;
  Date_now : N;
  Deno_makeTempFile : outcome string;
  Deno_writeTextFile : string -> string -> outcome unit;
  Command_spawn : string -> list string -> outcome unit;
  stdin_write : string -> outcome unit;
  stdin_close : outcome unit;
  process_output : outcome (N * string);
  Command_output : string -> list string -> outcome (N * string);
  Deno_remove : string -> outcome unit
}.

(** *** A JSON value inhabits interface [Config] *)

(** Property lookup in an object: the last member with that key, as
    [JSON.parse] keeps the last duplicate. *)
Fixpoint member (key : string) (members : list (string * json)) : option json :=
  match members with
  | [] => None
  | (k, v) :: rest =>
      match member key rest with
      | Some v' => Some v'
      | None => if (k =? key)%string then Some v else None
      end
  end.

Definition is_string (v : json) : bool :=
  match v with JStr _ => true | _ => false end.

Definition is_number (v : json) : bool :=
  match v with JNum _ => true | _ => false end.

Definition is_string_array (v : json) : bool :=
  match v with JArr elems => forallb is_string elems | _ => false end.

(** A required property of the given shape. *)
Definition required (key : string) (shape : json -> bool)
           (members : list (string * json)) : bool :=
  match member key members with Some v => shape v | None => false end.

(** An optional property of the given shape (marked [?] in the interface). *)
Definition optional (key : string) (shape : json -> bool)
           (members : list (string * json)) : bool :=
  match member key members with Some v => shape v | None => true end.

Definition conforms_EmailConfig (v : json) : bool :=
  match v with
  | JObj ms =>
      required "provider" is_string ms && required "host" is_string ms
      && required "port" is_number ms && optional "username" is_string ms
      && optional "password" is_string ms && required "fromEmail" is_string ms
      && optional "fromName" is_string ms
  | _ => false
  end.

Definition conforms_Config (v : json) : bool :=
  match v with
  | JObj ms =>
      required "email" is_string ms
      && required "checkIntervalMinutes" is_number ms
      && required "stores" is_string_array ms
      && required "sku" is_string ms
      && required "emailConfig" conforms_EmailConfig ms
  | _ => false
  end.

End DataModel.

Arguments mkStoreStock {number}.
Arguments mkStockResponse {number}.
Arguments mkStockTrackItem {number}.
Arguments mkEmailConfig {number}.
Arguments mkConfig {number}.
Arguments mkResponse {number}.
Arguments mkSmtpOptions {number}.
Arguments mkDeno {number}.
Arguments JNull {number}.
Arguments JBool {number}.
Arguments JStr {number}.
Arguments JArr {number}.
Arguments JObj {number}.
Arguments JNum {number}.

(* ================================================================= *)
(** ** The program *)

Section Program.

Context {number : Type} {JSN : JSNumber number}.

(** The platform the script runs on. *)
Variable deno : Deno number.

(** The error values of the script.  The specification calls them
    [ConfigLoadError], [StockCheckError] and [EmailConfigError]; in the
    source they are plain [Error]s told apart by their messages. *)
Definition ConfigLoadError : error := new_Error "Failed to load configuration".
Definition StockCheckError : error := new_Error "Failed to check stock availability".
Definition EmailConfigError : error := new_Error "SMTP host and port are required".

(** [EmailDeliveryError]: the error the SMTP branch throws when the relay
    failed with [cause]. *)
Definition EmailDeliveryError (cause : error) : error :=
  new_Error ("Failed to send email: " ++ String_error cause).

(* --------------------------------------------------------------- *)
(** *** loadConfig (main.ts 134-143) *)

(** The function returns what [JSON.parse] produced; [as Config] is a
    compile-time cast and checks nothing. *)
Definition loadConfig : M unit (json number) :=
  try_catch
    (configText <- platform (ReadTextFile "./config.json")
                            (Deno_readTextFile deno "./config.json") ;;
     config <- eval (JSON_parse deno configText) ;;
     ret config)
    (fun error =>
       console_error "Error loading config.json:" error ;;
       throw ConfigLoadError).

(* --------------------------------------------------------------- *)
(** *** checkStock (main.ts 146-210) *)

(** The request headers (main.ts 153-161). *)
Definition headers : list (string * string) :=
  [ ("User-Agent", "Mozilla/5.0 (Windows NT 10.0; Win64; x64) AppleWebKit/537.36 (KHTML, like Gecko) Chrome/91.0.4472.124 Safari/537.36");
    ("Accept", "text/html,application/xhtml+xml,application/xml;q=0.9,image/webp,*/*;q=0.8");
    ("Accept-Language", "en-US,en;q=0.5");
    ("Connection", "keep-alive");
    ("Upgrade-Insecure-Requests", "1");
    ("Cache-Control", "max-age=0");
    ("Referer", "https://stocktrack.ca/") ].

(** The [url] of main.ts 147-149. *)
Definition checkStock_url (config : Config number) : string :=
  let storeParam := join "," (stores config) in
  "https://stocktrack.ca/ct/availability.php?store=" ++ storeParam
    ++ "&sku=" ++ sku config ++ "&src=upc".

(** What a check leaves on the trace up to and including the request
    (main.ts 163-164). *)
Definition request_trace (config : Config number) : list event :=
  [ ConsoleLog ("Fetching data from: " ++ checkStock_url config);
    Fetch (checkStock_url config) headers ].

(** The object literal of main.ts 183-189. *)
Definition stock_of_item (item : StockTrackItem number) : StoreStock number :=
  {| store := Store item;
     quantity := Quantity item;
     name := Some ("Canadian Tire " ++ Store item);
     location := option_map (@Aisle) (Location item);
     price := Some (Price item) |}.

(** The object literal of main.ts 194-197: no [name], [location] or
    [price] property. *)
Definition out_of_stock (store_id : string) : StoreStock number :=
  {| store := store_id;
     quantity := num_zero;
     name := None;
     location := None;
     price := None |}.

(** [storeStocks.push(x)]. *)
Definition push {A} (array : list A) (x : A) : list A := array ++ [x].

(** main.ts 173-205: from the decoded body to the snapshot. *)
Definition parse_response (config : Config number)
           (jsonData : option (list (StockTrackItem number)))
  : StockResponse number :=
  match jsonData with
  | Some ((first :: _) as items) =>
      (* jsonData && jsonData.length > 0 *)
      let productName := str_or (Description first) EmptyString in
      {| sr_stores :=
           fold_left (fun storeStocks item => push storeStocks (stock_of_item item))
                     items [];
         sr_sku := sku config;
         sr_name := Some productName |}
  | _ =>
      {| sr_stores :=
           fold_left (fun storeStocks store_id => push storeStocks (out_of_stock store_id))
                     (stores config) [];
         sr_sku := sku config;
         sr_name := Some EmptyString |}
  end.

Definition checkStock : M (Config number) (StockResponse number) :=
  config <- get ;;
  let url := checkStock_url config in
  try_catch
    (console_log ("Fetching data from: " ++ url) ;;
     response <- platform (Fetch url headers) (fetch deno url headers) ;;
     when (negb (Response_ok response))
          (throw (new_Error ("HTTP error! status: "
                               ++ N_toString (status response)))) ;;
     jsonData <- platform ResponseJson (json_body response) ;;
     ret (parse_response config jsonData))
    (fun error =>
       console_error "Error checking stock:" error ;;
       throw StockCheckError).

(* --------------------------------------------------------------- *)
(** *** sendNotification (main.ts 213-304) *)

(** The callback of [.map] at main.ts 227-236. *)
Definition store_info (s : StoreStock number) : string :=
  let info := opt_or (name s) (store s) ++ ": "
                ++ num_toString (quantity s) ++ " in stock" in
  let info :=
    match price s with
    | Some p => if num_truthy p then info ++ " at $" ++ num_toFixed2 p else info
    | None => info
    end in
  let info :=
    match location s with
    | Some l => if str_truthy l then info ++ " (" ++ l ++ ")" else info
    | None => info
    end in
  info.

(** main.ts 218. *)
Definition storesWithStock (stockInfo : StockResponse number)
  : list (StoreStock number) :=
  filter (fun s => num_gt0 (quantity s)) (sr_stores stockInfo).

(** The array [storesWithStock.map(...)] of main.ts 226-236. *)
Definition summary_lines (stockInfo : StockResponse number) : list string :=
  map store_info (storesWithStock stockInfo).

(** main.ts 226-237. *)
Definition storeList (stockInfo : StockResponse number) : string :=
  join nl (summary_lines stockInfo).

(** main.ts 239. *)
Definition subject (stockInfo : StockResponse number) : string :=
  "Stock Alert: " ++ opt_or (sr_name stockInfo) (sr_sku stockInfo)
    ++ " Available at Canadian Tire".

(** main.ts 240-248. *)
Definition plainTextContent (config : Config number)
           (stockInfo : StockResponse number) : string :=
  nl ++ "      Stock Alert!" ++ nl
     ++ "      " ++ nl
     ++ "      The item you're tracking ("
     ++ opt_or (sr_name stockInfo) (sr_sku stockInfo)
     ++ ") is now in stock at the following Canadian Tire locations:" ++ nl
     ++ "      " ++ nl
     ++ "      " ++ storeList stockInfo ++ nl
     ++ "      " ++ nl
     ++ "      Check it out at: https://stocktrack.ca/ct/availability.php?store="
     ++ join "," (stores config) ++ "&sku=" ++ sr_sku stockInfo ++ "&src=upc" ++ nl
     ++ "    ".

(** The address inside [href] at main.ts 254. *)
Definition html_href (config : Config number)
           (stockInfo : StockResponse number) : string :=
  "https://stocktrack.ca/ct/availability.php?store="
    ++ join "," (stores config) ++ "&sku=" ++ sr_sku stockInfo ++ "&src=upc".

(** main.ts 250-255. *)
Definition htmlContent (config : Config number)
           (stockInfo : StockResponse number) : string :=
  nl ++ "      <h1>Stock Alert!</h1>" ++ nl
     ++ "      <p>The item you're tracking <strong>"
     ++ opt_or (sr_name stockInfo) (sr_sku stockInfo)
     ++ "</strong> is now in stock at the following Canadian Tire locations:</p>" ++ nl
     ++ "      <pre>" ++ storeList stockInfo ++ "</pre>" ++ nl
     ++ "      <p>Check it out at: <a href=" ++ dq
     ++ html_href config stockInfo
     ++ dq ++ ">StockTrack</a></p>" ++ nl
     ++ "    ".

(** [!x] and [x] as a condition, for a number that may be [undefined]. *)
Definition num_opt_truthy (x : option number) : bool :=
  match x with Some n => num_truthy n | None => false end.

(** sendSmtpEmail (main.ts 62-123): hand the message to the system's
    [mail] command. *)
Definition sendSmtpEmail {S} (options : SmtpOptions number) : M S unit :=
  let from := o_from options in
  let to := o_to options in
  let subject := o_subject options in
  let html := o_html options in
  let text := o_text options in
  tempFile <- platform MakeTempFile (Deno_makeTempFile deno) ;;
  try_finally
    (platform (WriteTextFile tempFile (opt_or html text))
              (Deno_writeTextFile deno tempFile (opt_or html text)) ;;
     let args := ["-s"; subject; "-a"; "From: " ++ from;
                  "-a"; "Content-Type: text/html"; to] in
     platform (CommandSpawn "mail" args) (Command_spawn deno "mail" args) ;;
     fileContent <- platform (ReadTextFile tempFile)
                             (Deno_readTextFile deno tempFile) ;;
     platform (StdinWrite fileContent) (stdin_write deno fileContent) ;;
     platform StdinClose (stdin_close deno) ;;
     out <- platform ProcessOutput (process_output deno) ;;
     let code := fst out in
     let errorOutput := snd out in
     when (negb (code =? 0)%N)
          (throw (new_Error ("Mail command failed with code "
                               ++ N_toString code ++ ": " ++ errorOutput))) ;;
     console_log ("Mail sent to " ++ to ++ " via system mail command"))
    (try_catch
       (platform (Remove tempFile) (Deno_remove deno tempFile))
       (fun error => console_error "Error removing temp file:" error)).

(** The [smtp] branch, main.ts 257-289. *)
Definition smtp_branch {S} (config : Config number)
           (stockInfo : StockResponse number) : M S unit :=
  let ec := emailConfig config in
  let fromName_ := opt_or (fromName ec) "Canadian Tire Stock Checker" in
  when (negb (opt_truthy (host ec)) || negb (num_opt_truthy (port ec)))
       (throw EmailConfigError) ;;
  console_log ("Sending email notification to " ++ email config ++ " via SMTP...") ;;
  try_catch
    (let sender :=
       if str_truthy fromName_
       then fromName_ ++ " <" ++ fromEmail ec ++ ">"
       else fromEmail ec in
     sendSmtpEmail
       {| o_host := host ec;
          o_port := port ec;
          o_username := username ec;
          o_password := password ec;
          o_from := sender;
          o_to := email config;
          o_subject := subject stockInfo;
          o_text := plainTextContent config stockInfo;
          o_html := Some (htmlContent config stockInfo) |} ;;
     console_log ("Email notification sent to " ++ email config ++ " successfully"))
    (fun error =>
       console_error "SMTP error:" error ;;
       throw (EmailDeliveryError error)).

(** The [smtp] branch of the earlier version, part_000 192-237: the relay
    is run inline. *)
Definition smtp_branch_part000 {S} (config : Config number)
           (stockInfo : StockResponse number) : M S unit :=
  let ec := emailConfig config in
  let fromName_ := opt_or (fromName ec) "Canadian Tire Stock Checker" in
  when (negb (opt_truthy (host ec)) || negb (num_opt_truthy (port ec)))
       (throw EmailConfigError) ;;
  console_log ("Sending email notification to " ++ email config ++ " via SMTP...") ;;
  try_catch
    (let tempFileName := "/tmp/stock_alert_" ++ N_toString (Date_now deno) ++ ".txt" in
     let emailContent :=
       "Subject: " ++ subject stockInfo ++ nl
         ++ "From: " ++ fromName_ ++ " <" ++ fromEmail ec ++ ">" ++ nl
         ++ "To: " ++ email config ++ nl
         ++ "Content-Type: text/html" ++ nl ++ nl
         ++ htmlContent config stockInfo in
     platform (WriteTextFile tempFileName emailContent)
              (Deno_writeTextFile deno tempFileName emailContent) ;;
     let args := ["-t"; "<"; tempFileName] in
     out <- platform (CommandOutput "mail" args) (Command_output deno "mail" args) ;;
     let code := fst out in
     let errorOutput := snd out in
     platform (Remove tempFileName) (Deno_remove deno tempFileName) ;;
     when (negb (code =? 0)%N)
          (throw (new_Error ("Mail command failed: " ++ errorOutput))) ;;
     console_log ("Email notification sent to " ++ email config ++ " successfully"))
    (fun error =>
       console_error "Email error:" error ;;
       throw (EmailDeliveryError error)).

(** The [else] branch, main.ts 290-300. *)
Definition console_branch {S} (config : Config number)
           (stockInfo : StockResponse number) : M S unit :=
  console_log (nl ++ "=== STOCK NOTIFICATION ===" ++ nl) ;;
  console_log ("To: " ++ email config) ;;
  console_log ("Subject: " ++ subject stockInfo) ;;
  console_log (plainTextContent config stockInfo) ;;
  console_log (nl ++ "=========================" ++ nl) ;;
  console_log ("Notification would be sent to " ++ email config ++ " in production") ;;
  console_log "Note: Email functionality is using console mode. Set provider to 'sendgrid' and add API key for real emails.".

(** The body of the [try] of main.ts 225-300; [smtp] is the SMTP branch of
    the version at hand. *)
Definition sendNotification_try {S}
           (smtp : Config number -> StockResponse number -> M S unit)
           (config : Config number) (stockInfo : StockResponse number) : M S unit :=
  if (provider (emailConfig config) =? "smtp")%string
  then smtp config stockInfo
  else console_branch config stockInfo.

Definition sendNotification_with
           (smtp : Config number -> StockResponse number
                   -> M (Config number * StockResponse number) unit)
  : M (Config number * StockResponse number) unit :=
  args <- get ;;
  let config := fst args in
  let stockInfo := snd args in
  if Nat.eqb (length (storesWithStock stockInfo)) 0
  then console_log "No stock available, skipping notification"
  else
    try_catch
      (sendNotification_try smtp config stockInfo)
      (fun error => console_error "Error sending notification:" error).

(** sendNotification of main.ts. *)
Definition sendNotification : M (Config number * StockResponse number) unit :=
  sendNotification_with smtp_branch.

(** sendNotification of the earlier version (part_000 148-252). *)
Definition sendNotification_part000
  : M (Config number * StockResponse number) unit :=
  sendNotification_with smtp_branch_part000.

(* --------------------------------------------------------------- *)
(** *** runCheck (main.ts 328-363) *)

(** The product name as the log line of main.ts 334 shows it. *)
Definition runCheck_shown_name (stockInfo : StockResponse number) : string :=
  opt_or (sr_name stockInfo) "Unknown".

(** main.ts 336-346. *)
Definition runCheck_storeInfo (s : StoreStock number) : string :=
  let storeInfo := "  " ++ opt_or (name s) (store s) ++ ": "
                     ++ num_toString (quantity s) ++ " in stock" in
  if num_gt0 (quantity s) then
    let storeInfo :=
      match price s with
      | Some p => if num_truthy p
                  then storeInfo ++ " at $" ++ num_toFixed2 p else storeInfo
      | None => storeInfo
      end in
    match location s with
    | Some l => if str_truthy l then storeInfo ++ " (" ++ l ++ ")" else storeInfo
    | None => storeInfo
    end
  else storeInfo.

Definition runCheck : M (Config number) unit :=
  try_catch
    (console_log ("Checking stock at " ++ Date_toLocaleString deno ++ "...") ;;
     stockInfo <- checkStock ;;
     console_log ("Stock information for SKU " ++ sr_sku stockInfo ++ " ("
                    ++ runCheck_shown_name stockInfo ++ "):") ;;
     for_of (sr_stores stockInfo)
            (fun s => console_log (runCheck_storeInfo s)) ;;
     let hasStock := existsb (fun s => num_gt0 (quantity s)) (sr_stores stockInfo) in
     if hasStock
     then console_log "Stock found! Sending notification..." ;;
          call_with stockInfo sendNotification
     else console_log "No stock available at any store.")
    (fun error => console_error "Error running stock check:" error).

End Program.

(* ================================================================= *)
(** ** Scenarios *)

(** Concrete configurations, responses and platforms, with numbers read as
    hundredths.  The first ones are the end-to-end scenarios of the
    specification. *)
Module Scenario.
Import Hundredths.

Definition console_settings : EmailConfig N :=
  mkEmailConfig "console" None None None None "alerts@example.org" None.

(** [provider: "smtp"] with no [host]. *)
Definition smtp_no_host : EmailConfig N :=
  mkEmailConfig "smtp" None (Some (of_int 25)) None None "alerts@example.org" None.

Definition smtp_settings : EmailConfig N :=
  mkEmailConfig "smtp" (Some "localhost") (Some (of_int 25)) None None
                "alerts@example.org" None.

Definition config_with (settings : EmailConfig N) : Config N :=
  mkConfig "me@example.org" (of_int 60) ["0459"; "0150"] "1502321" settings.

Definition config : Config N := config_with console_settings.

(** [{Store:"0459", Quantity:3, Description:"Widget", Price:19.99}] *)
Definition widget : StockTrackItem N :=
  mkStockTrackItem "0459" (of_cents 19 99) (of_int 3) "Widget" None.

(** A platform whose endpoint answers [status] with the given body, whose
    [config.json] holds [file], and whose mail relay exits with [code]. *)
Definition platform_with (file : outcome string) (status : N)
           (body : outcome (option (list (StockTrackItem N)))) (code : N) : Deno N :=
  mkDeno
    (fun path => if (path =? "./config.json")%string then file
                 else Returned "<html>")
    (fun text => if (text =? "{}")%string then Returned (JObj [])
                 else Thrown (mkError "SyntaxError" "Unexpected token"))
    (fun _ _ => Returned (mkResponse status body))
    "11/2/2026, 10:00:00 AM"
    1793613600000
    (Returned "/tmp/a1b2c3")
    (fun _ _ => Returned tt)
    (fun _ _ => Returned tt)
    (fun _ => Returned tt)
    (Returned tt)
    (Returned (code, "mail: cannot send"))
    (fun _ _ => Returned (code, "mail: cannot send"))
    (fun _ => Returned tt).

(** The endpoint answers 200 with [items]. *)
Definition endpoint (items : list (StockTrackItem N)) : Deno N :=
  platform_with (Returned "{}") 200 (Returned (Some items)) 0.

(** The endpoint answers with an error status. *)
Definition endpoint_down (status : N) : Deno N :=
  platform_with (Returned "{}") status (Returned None) 0.




(** A snapshot with one store in stock and one out of stock, all optional
    properties set. *)
Definition two_stores : StockResponse N :=
  mkStockResponse
    [mkStoreStock "0459" (of_int 3) (Some "Canadian Tire 0459") (Some "Aisle 12")
                  (Some (of_cents 19 99));
     mkStoreStock "0150" 0%N None None None]
    "1502321" (Some "Widget").

(** A snapshot with every store out of stock. *)
Definition sold_out : StockResponse N :=
  mkStockResponse
    [mkStoreStock "0459" 0%N None None None; mkStoreStock "0150" 0%N None None None]
    "1502321" (Some EmptyString).

End Scenario.

(* ================================================================= *)
(** ** Vocabulary for the further properties *)

(** Classes of platform calls. *)
Definition is_Fetch (ev : event) : bool :=
  match ev with Fetch _ _ => true | _ => false end.

Definition is_network (ev : event) : bool :=
  match ev with Fetch _ _ | ResponseJson => true | _ => false end.

Definition is_console (ev : event) : bool :=
  match ev with ConsoleLog _ | ConsoleError _ _ => true | _ => false end.

Definition is_console_or_network (ev : event) : bool :=
  is_console ev || is_network ev.

Definition is_Remove (ev : event) : bool :=
  match ev with Remove _ => true | _ => false end.

(** A computation that does not look at the objects it holds: it makes the
    same calls and ends the same way whatever they are, and leaves them as
    they were. *)
Definition stateless {S A} (m : M S A) : Prop :=
  exists t r, forall s, m s = mkRes s t r.

(** Every platform call of [m] is of class [P], whatever objects it holds. *)
Definition emits {S A} (P : event -> bool) (m : M S A) : Prop :=
  forall s, forallb P (trace (m s)) = true.

Section Delivery.

Context {number : Type} {JSN : JSNumber number}.

(** The [try] block of [sendSmtpEmail], main.ts 78-114. *)
Definition sendSmtpEmail_try {S} (deno : Deno number) (options : SmtpOptions number)
           (tempFile : string) : M S unit :=
  let from := o_from options in
  let to := o_to options in
  let subject := o_subject options in
  let html := o_html options in
  let text := o_text options in
  platform (WriteTextFile tempFile (opt_or html text))
           (Deno_writeTextFile deno tempFile (opt_or html text)) ;;
  let args := ["-s"; subject; "-a"; "From: " ++ from;
               "-a"; "Content-Type: text/html"; to] in
  platform (CommandSpawn "mail" args) (Command_spawn deno "mail" args) ;;
  fileContent <- platform (ReadTextFile tempFile)
                          (Deno_readTextFile deno tempFile) ;;
  platform (StdinWrite fileContent) (stdin_write deno fileContent) ;;
  platform StdinClose (stdin_close deno) ;;
  out <- platform ProcessOutput (process_output deno) ;;
  let code := fst out in
  let errorOutput := snd out in
  when (negb (code =? 0)%N)
       (throw (new_Error ("Mail command failed with code "
                            ++ N_toString code ++ ": " ++ errorOutput))) ;;
  console_log ("Mail sent to " ++ to ++ " via system mail command").

(** The [sender] of main.ts 271. *)
Definition smtp_sender (config : Config number) : string :=
  let ec := emailConfig config in
  let fromName_ := opt_or (fromName ec) "Canadian Tire Stock Checker" in
  if str_truthy fromName_
  then fromName_ ++ " <" ++ fromEmail ec ++ ">"
  else fromEmail ec.

(** The argument of [sendSmtpEmail] at main.ts 273-283. *)
Definition smtp_options (config : Config number) (stockInfo : StockResponse number)
  : SmtpOptions number :=
  let ec := emailConfig config in
  {| o_host := host ec;
     o_port := port ec;
     o_username := username ec;
     o_password := password ec;
     o_from := smtp_sender config;
     o_to := email config;
     o_subject := subject stockInfo;
     o_text := plainTextContent config stockInfo;
     o_html := Some (htmlContent config stockInfo) |}.

(** The [args] of the [mail] command, main.ts 83-88. *)
Definition mail_args (options : SmtpOptions number) : list string :=
  ["-s"; o_subject options; "-a"; "From: " ++ o_from options;
   "-a"; "Content-Type: text/html"; o_to options].

(** [tempFileName] and [emailContent] of the earlier version,
    part_000 211-212. *)
Definition part000_tempFileName (deno : Deno number) : string :=
  "/tmp/stock_alert_" ++ N_toString (Date_now deno) ++ ".txt".

Definition part000_emailContent (config : Config number)
           (stockInfo : StockResponse number) : string :=
  let ec := emailConfig config in
  "Subject: " ++ subject stockInfo ++ nl
    ++ "From: " ++ opt_or (fromName ec) "Canadian Tire Stock Checker"
    ++ " <" ++ fromEmail ec ++ ">" ++ nl
    ++ "To: " ++ email config ++ nl
    ++ "Content-Type: text/html" ++ nl ++ nl
    ++ htmlContent config stockInfo.

(** The seven lines of the console branch, main.ts 292-299. *)
Definition console_notification (config : Config number)
           (stockInfo : StockResponse number) : list event :=
  [ ConsoleLog (nl ++ "=== STOCK NOTIFICATION ===" ++ nl);
    ConsoleLog ("To: " ++ email config);
    ConsoleLog ("Subject: " ++ subject stockInfo);
    ConsoleLog (plainTextContent config stockInfo);
    ConsoleLog (nl ++ "=========================" ++ nl);
    ConsoleLog ("Notification would be sent to " ++ email config ++ " in production");
    ConsoleLog "Note: Email functionality is using console mode. Set provider to 'sendgrid' and add API key for real emails." ].

(** The lines the cycle prints about a snapshot, main.ts 334-349. *)
Definition runCheck_report (stockInfo : StockResponse number) : list event :=
  ConsoleLog ("Stock information for SKU " ++ sr_sku stockInfo ++ " ("
                ++ runCheck_shown_name stockInfo ++ "):")
  :: map (fun s => ConsoleLog (runCheck_storeInfo s)) (sr_stores stockInfo).

(** The same configuration with other SMTP server settings. *)
Definition with_server (config : Config number) (host' : option string)
           (port' : option number) (username' password' : option string)
  : Config number :=
  let ec := emailConfig config in
  mkConfig (email config) (checkIntervalMinutes config) (stores config) (sku config)
           (mkEmailConfig (provider ec) host' port' username' password'
                          (fromEmail ec) (fromName ec)).

(** The same platform with another answer to one call. *)
Definition with_fetch (d : Deno number)
           (answer : string -> list (string * string) -> outcome (Response number))
  : Deno number :=
  mkDeno (Deno_readTextFile d) (JSON_parse d) answer (Date_toLocaleString d)
         (Date_now d) (Deno_makeTempFile d) (Deno_writeTextFile d) (Command_spawn d)
         (stdin_write d) (stdin_close d) (process_output d) (Command_output d)
         (Deno_remove d).

Definition with_makeTempFile (d : Deno number) (answer : outcome string)
  : Deno number :=
  mkDeno (Deno_readTextFile d) (JSON_parse d) (fetch d) (Date_toLocaleString d)
         (Date_now d) answer (Deno_writeTextFile d) (Command_spawn d)
         (stdin_write d) (stdin_close d) (process_output d) (Command_output d)
         (Deno_remove d).

Definition with_Command_output (d : Deno number)
           (answer : string -> list string -> outcome (N * string)) : Deno number :=
  mkDeno (Deno_readTextFile d) (JSON_parse d) (fetch d) (Date_toLocaleString d)
         (Date_now d) (Deno_makeTempFile d) (Deno_writeTextFile d) (Command_spawn d)
         (stdin_write d) (stdin_close d) (process_output d) answer
         (Deno_remove d).

Definition with_remove (d : Deno number) (answer : string -> outcome unit)
  : Deno number :=
  mkDeno (Deno_readTextFile d) (JSON_parse d) (fetch d) (Date_toLocaleString d)
         (Date_now d) (Deno_makeTempFile d) (Deno_writeTextFile d) (Command_spawn d)
         (stdin_write d) (stdin_close d) (process_output d) (Command_output d)
         answer.

End Delivery.

(** More platforms and settings for the scenarios. *)
Module Outage.
Import Scenario.

(** The request cannot be sent. *)
Definition network_down : Deno N :=
  with_fetch (endpoint []) (fun _ _ => Thrown (mkError "TypeError" "error sending request")).

(** The endpoint answers 200 with a page that is not JSON. *)
Definition not_json : Deno N :=
  platform_with (Returned "{}") 200
                (Thrown (mkError "SyntaxError" "Unexpected token <")) 0.

(** The mail relay exits with [code]. *)
Definition relay_exits (code : N) : Deno N :=
  platform_with (Returned "{}") 200 (Returned None) code.

(** No temporary file can be made. *)
Definition no_temp_file : Deno N :=
  with_makeTempFile (relay_exits 0) (Thrown (mkError "PermissionDenied" "cannot create")).

(** The temporary file cannot be removed. *)
Definition remove_fails : Deno N :=
  with_remove (relay_exits 0) (fun _ => Thrown (mkError "NotFound" "cannot remove")).

(** There is no [mail] command. *)
Definition no_mail_command : Deno N :=
  with_Command_output (relay_exits 0)
    (fun _ _ => Thrown (mkError "NotFound" "Failed to spawn 'mail'")).

(** [provider: "smtp"] with an empty [host] and port 0. *)
Definition smtp_empty_host : EmailConfig N :=
  mkEmailConfig "smtp" (Some EmptyString) (Some 0%N) None None "alerts@example.org" None.

(** SMTP settings with credentials and another server. *)
Definition other_server : Config N :=
  with_server (config_with smtp_settings) (Some "smtp.example.org")
              (Some (Hundredths.of_int 587)) (Some "user") (Some "secret").

(** An endpoint that returns a record for a store that was not requested. *)
Definition stranger : StockTrackItem N :=
  mkStockTrackItem "0999" (Hundredths.of_cents 5 0) (Hundredths.of_int 1) "Widget"
                   (Some (mkItemLocation "Aisle 7")).

End Outage.

(* ================================================================= *)
(** ** Facts about strings and arrays *)

Lemma append_empty_r (s : string) : s ++ EmptyString = s.
Proof. induction s as [|c s IH]; simpl; [reflexivity | now rewrite IH]. Qed.

Lemma append_assoc' (a b c : string) : (a ++ b) ++ c = a ++ (b ++ c).
Proof. induction a as [|x a IH]; simpl; [reflexivity | now rewrite IH]. Qed.

Lemma prefix_append (n post : string) : prefix n (n ++ post) = true.
Proof.
  induction n as [|c n IH]; simpl.
  - now destruct post.
  - destruct (ascii_dec c c) as [_|ne]; [exact IH | now elim ne].
Qed.

Lemma prefix_inv (n h : string) :
  prefix n h = true -> exists post, h = n ++ post.
Proof.
  revert h; induction n as [|c n IH]; intros h Hp.
  - now exists h.
  - destruct h as [|d h]; simpl in Hp; [discriminate|].
    destruct (ascii_dec c d) as [->|]; [|discriminate].
    destruct (IH _ Hp) as [post ->]. now exists post.
Qed.

Lemma includes_unfold (n h : string) :
  includes n h = if prefix n h then true
                 else match h with
                      | EmptyString => false
                      | String _ h' => includes n h'
                      end.
Proof. now destruct h. Qed.

(** [includes] decides [Substring]. *)
Lemma includes_Substring (n h : string) :
  includes n h = true <-> Substring n h.
Proof.
  split.
  - induction h as [|c h IH]; intros Hi; rewrite includes_unfold in Hi.
    + destruct (prefix n EmptyString) eqn:Hp; [|discriminate].
      destruct (prefix_inv _ _ Hp) as [post E]. now exists EmptyString, post.
    + destruct (prefix n (String c h)) eqn:Hp.
      * destruct (prefix_inv _ _ Hp) as [post E]. now exists EmptyString, post.
      * destruct (IH Hi) as (pre & post & E).
        exists (String c pre), post. simpl. now rewrite E.
  - intros (pre & post & ->). induction pre as [|c pre IH].
    + simpl. now rewrite includes_unfold, prefix_append.
    + change (String c pre ++ n ++ post) with (String c (pre ++ n ++ post)).
      rewrite includes_unfold, IH.
      now destruct (prefix n (String c (pre ++ n ++ post))).
Qed.

Lemma Substring_refl (s : string) : Substring s s.
Proof. exists EmptyString, EmptyString. simpl. now rewrite append_empty_r. Qed.

Lemma Substring_append_l (n a b : string) : Substring n a -> Substring n (a ++ b).
Proof.
  intros (p & q & ->). exists p, (q ++ b). now rewrite !append_assoc'.
Qed.

Lemma Substring_append_r (n a b : string) : Substring n b -> Substring n (a ++ b).
Proof.
  intros (p & q & ->). exists (a ++ p), q. now rewrite !append_assoc'.
Qed.

(** Every element of an array occurs in its [join]. *)
Lemma Substring_join (sep x : string) (l : list string) :
  In x l -> Substring x (join sep l).
Proof.
  induction l as [|y l IH]; intros Hin; [contradiction|].
  destruct l as [|z l].
  - destruct Hin as [->|[]]. apply Substring_refl.
  - change (join sep (y :: z :: l)) with (y ++ sep ++ join sep (z :: l)).
    destruct Hin as [->|Hin].
    + apply Substring_append_l, Substring_refl.
    + now apply Substring_append_r, Substring_append_r, IH.
Qed.

Lemma str_or_empty (s : string) : str_or s EmptyString = s.
Proof. now destruct s. Qed.

(** A loop that pushes one element per item builds the array of its
    images, after what the array held. *)
Lemma fold_left_push {A B} (f : A -> B) (l : list A) (acc : list B) :
  fold_left (fun array x => push array (f x)) l acc = (acc ++ map f l)%list.
Proof.
  revert acc; induction l as [|x l IH]; intros acc; simpl.
  - now rewrite app_nil_r.
  - rewrite IH. unfold push. now rewrite <- app_assoc.
Qed.

(* ================================================================= *)
(** ** Facts about the monad *)

(** A [catch] that only logs turns every outcome into a normal return. *)
Lemma try_catch_log_returns {S} (body : M S unit) (label : string) (s : S) :
  result (try_catch body (fun error => console_error label error) s) = Returned tt.
Proof.
  unfold try_catch. destruct (result (body s)) as [[]|e] eqn:E; simpl; auto.
Qed.

(** What such a [catch] leaves on the trace when the body throws. *)
Lemma try_catch_log_thrown {S} (body : M S unit) (label : string) (s : S) (e : error) :
  result (body s) = Thrown e ->
  try_catch body (fun error => console_error label error) s
  = mkRes (final (body s)) (trace (body s) ++ [ConsoleError label e])%list (Returned tt).
Proof. unfold try_catch. now intros ->. Qed.

(* ================================================================= *)
(** ** The Stock Checker *)

Section StockChecker.

Context {number : Type} {JSN : JSNumber number}.
Variable deno : Deno number.

(** A successful status and a decodable body: the snapshot is returned. *)
Lemma checkStock_success (config : Config number) (response : Response number)
      (body : option (list (StockTrackItem number))) :
  fetch deno (checkStock_url config) headers = Returned response ->
  Response_ok response = true ->
  json_body response = Returned body ->
  checkStock deno config
  = mkRes config (request_trace config ++ [ResponseJson])%list
          (Returned (parse_response config body)).
Proof.
  intros Hf Hok Hb.
  unfold checkStock, bind, get, try_catch, when, platform, console_log; simpl.
  rewrite Hf; simpl. rewrite Hok; simpl. rewrite Hb; reflexivity.
Qed.

(** A status outside 200-299: the inner error names the status and is
    logged; the caller receives [StockCheckError]. *)
Lemma checkStock_bad_status (config : Config number) (response : Response number) :
  fetch deno (checkStock_url config) headers = Returned response ->
  Response_ok response = false ->
  checkStock deno config
  = mkRes config
          (request_trace config ++
           [ConsoleError "Error checking stock:"
              (new_Error ("HTTP error! status: " ++ N_toString (status response)))])%list
          (Thrown StockCheckError).
Proof.
  intros Hf Hok.
  unfold checkStock, bind, get, try_catch, when, platform, console_log; simpl.
  rewrite Hf; simpl. rewrite Hok; reflexivity.
Qed.

(** The request itself fails (network error). *)
Lemma checkStock_fetch_fails (config : Config number) (e : error) :
  fetch deno (checkStock_url config) headers = Thrown e ->
  checkStock deno config
  = mkRes config (request_trace config ++ [ConsoleError "Error checking stock:" e])%list
          (Thrown StockCheckError).
Proof.
  intros Hf.
  unfold checkStock, bind, get, try_catch, when, platform, console_log; simpl.
  rewrite Hf; reflexivity.
Qed.

(** The body does not decode. *)
Lemma checkStock_decode_fails (config : Config number) (response : Response number)
      (e : error) :
  fetch deno (checkStock_url config) headers = Returned response ->
  Response_ok response = true ->
  json_body response = Thrown e ->
  checkStock deno config
  = mkRes config
          (request_trace config ++ [ResponseJson; ConsoleError "Error checking stock:" e])%list
          (Thrown StockCheckError).
Proof.
  intros Hf Hok Hb.
  unfold checkStock, bind, get, try_catch, when, platform, console_log; simpl.
  rewrite Hf; simpl. rewrite Hok; simpl. rewrite Hb; reflexivity.
Qed.

(** The four cases above are all there are: a check that returns went
    through [checkStock_success]. *)
Lemma checkStock_returned_inv (config : Config number) (snapshot : StockResponse number) :
  result (checkStock deno config) = Returned snapshot ->
  exists response body,
    fetch deno (checkStock_url config) headers = Returned response /\
    Response_ok response = true /\
    json_body response = Returned body /\
    snapshot = parse_response config body.
Proof.
  intros Hr.
  destruct (fetch deno (checkStock_url config) headers) as [response|e] eqn:Hf.
  - destruct (Response_ok response) eqn:Hok.
    + destruct (json_body response) as [body|e] eqn:Hb.
      * rewrite (checkStock_success _ Hf Hok Hb) in Hr. simpl in Hr.
        injection Hr as <-. now exists response, body.
      * rewrite (checkStock_decode_fails _ Hf Hok Hb) in Hr. discriminate.
    + rewrite (checkStock_bad_status _ Hf Hok) in Hr. discriminate.
  - rewrite (checkStock_fetch_fails _ Hf) in Hr. discriminate.
Qed.

(** The snapshot built from a non-empty array. *)
Lemma parse_response_nonempty (config : Config number)
      (first : StockTrackItem number) (rest : list (StockTrackItem number)) :
  parse_response config (Some (first :: rest))
  = {| sr_stores := map stock_of_item (first :: rest);
       sr_sku := sku config;
       sr_name := Some (Description first) |}.
Proof.
  unfold parse_response. now rewrite fold_left_push, str_or_empty.
Qed.

(** The snapshot built from an empty array or from [null]. *)
Lemma parse_response_empty (config : Config number)
      (body : option (list (StockTrackItem number))) :
  body = None \/ body = Some [] ->
  parse_response config body
  = {| sr_stores := map out_of_stock (stores config);
       sr_sku := sku config;
       sr_name := Some EmptyString |}.
Proof.
  intros [->| ->]; unfold parse_response; now rewrite fold_left_push.
Qed.

Lemma parse_response_sku (config : Config number)
      (body : option (list (StockTrackItem number))) :
  sr_sku (parse_response config body) = sku config.
Proof. now destruct body as [[|first rest]|]. Qed.

(** C1. When the request succeeds and the body is a non-empty JSON array of
    per-store records, [checkStock] returns a snapshot with one entry per
    record, in the order of the array, whose store identifier and quantity
    are the record's [Store] and [Quantity] unchanged, and whose product
    name is the [Description] of the first record. *)
Theorem checkStock_nonempty_array (config : Config number)
        (response : Response number)
        (first : StockTrackItem number) (rest : list (StockTrackItem number)) :
  fetch deno (checkStock_url config) headers = Returned response ->
  Response_ok response = true ->
  json_body response = Returned (Some (first :: rest)) ->
  exists snapshot,
    result (checkStock deno config) = Returned snapshot /\
    length (sr_stores snapshot) = length (first :: rest) /\
    Forall2 (fun item entry =>
               store entry = Store item /\ quantity entry = Quantity item)
            (first :: rest) (sr_stores snapshot) /\
    sr_name snapshot = Some (Description first).
Proof.
  intros Hf Hok Hb.
  exists (parse_response config (Some (first :: rest))).
  rewrite (checkStock_success _ Hf Hok Hb), parse_response_nonempty.
  cbn [result sr_stores sr_name].
  repeat split.
  - now rewrite length_map.
  - generalize (first :: rest) as items.
    induction items as [|item items IH]; simpl; constructor; auto.
Qed.

(** C2. When the body is the empty JSON array, [checkStock] returns a
    snapshot with one entry per configured store identifier, in the order
    of the configuration, each with quantity zero and with no name,
    location or price. *)
Theorem checkStock_empty_array (config : Config number) (response : Response number) :
  fetch deno (checkStock_url config) headers = Returned response ->
  Response_ok response = true ->
  json_body response = Returned (Some []) ->
  exists snapshot,
    result (checkStock deno config) = Returned snapshot /\
    map (@store number) (sr_stores snapshot) = stores config /\
    Forall (fun entry =>
              quantity entry = num_zero /\ name entry = None /\
              location entry = None /\ price entry = None)
           (sr_stores snapshot).
Proof.
  intros Hf Hok Hb.
  exists (parse_response config (Some [])).
  rewrite (checkStock_success _ Hf Hok Hb), parse_response_empty by auto.
  cbn [result sr_stores].
  repeat split.
  - rewrite map_map. simpl. apply map_id.
  - apply Forall_forall. intros entry Hin.
    apply in_map_iff in Hin as (id & <- & _). now repeat split.
Qed.

(** C4 (amended). When the response has a non-success status, [checkStock]
    fails with [StockCheckError], whose message is the fixed text
    [Failed to check stock availability]; the status code is carried by
    the inner error, which is written to the error log and not delivered
    to the caller. *)
Theorem checkStock_non_success_status (config : Config number)
        (response : Response number) :
  fetch deno (checkStock_url config) headers = Returned response ->
  Response_ok response = false ->
  result (checkStock deno config) = Thrown StockCheckError /\
  error_message StockCheckError = "Failed to check stock availability" /\
  exists inner,
    In (ConsoleError "Error checking stock:" inner) (trace (checkStock deno config)) /\
    Substring (N_toString (status response)) (error_message inner).
Proof.
  intros Hf Hok. rewrite (checkStock_bad_status _ Hf Hok).
  repeat split.
  eexists; split.
  - cbn [trace]. apply in_or_app; right; left; reflexivity.
  - cbn [error_message new_Error]. apply Substring_append_r, Substring_refl.
Qed.

(** The address inside the anchor of the HTML body. *)
Lemma htmlContent_anchor (config : Config number) (stockInfo : StockResponse number) :
  Substring ("<a href=" ++ dq ++ html_href config stockInfo ++ dq ++ ">StockTrack</a>")
            (htmlContent config stockInfo).
Proof.
  unfold htmlContent.
  exists (nl ++ "      <h1>Stock Alert!</h1>" ++ nl
             ++ "      <p>The item you're tracking <strong>"
             ++ opt_or (sr_name stockInfo) (sr_sku stockInfo)
             ++ "</strong> is now in stock at the following Canadian Tire locations:</p>" ++ nl
             ++ "      <pre>" ++ storeList stockInfo ++ "</pre>" ++ nl
             ++ "      <p>Check it out at: "),
         ("</p>" ++ nl ++ "    ").
  repeat (rewrite !append_assoc'; cbn [append]).
  reflexivity.
Qed.

(** C9. The address of the hyperlink in the HTML body of a notification
    about a snapshot that [checkStock] returned for a configuration is,
    as a string, the URL that [checkStock] fetched for that
    configuration. *)
Theorem notification_link_is_query_url (config : Config number)
        (snapshot : StockResponse number) :
  result (checkStock deno config) = Returned snapshot ->
  In (Fetch (checkStock_url config) headers) (trace (checkStock deno config)) /\
  html_href config snapshot = checkStock_url config /\
  Substring ("<a href=" ++ dq ++ checkStock_url config ++ dq ++ ">StockTrack</a>")
            (htmlContent config snapshot).
Proof.
  intros Hr.
  destruct (checkStock_returned_inv _ Hr) as (response & body & Hf & Hok & Hb & ->).
  assert (E : html_href config (parse_response config body) = checkStock_url config).
  { unfold html_href, checkStock_url. now rewrite parse_response_sku. }
  repeat split.
  - rewrite (checkStock_success _ Hf Hok Hb). cbn. auto.
  - exact E.
  - rewrite <- E. apply htmlContent_anchor.
Qed.

(** C10 (amended). Whenever [checkStock] returns a snapshot, its [sku] is
    the configured SKU; and when the body was the empty array or [null],
    the product name is the empty string, so that the subject line of the
    Notifier shows the SKU, while the log line of the Scheduler shows
    [Unknown]. *)
Theorem checkStock_sku_and_name_fallback (config : Config number)
        (snapshot : StockResponse number) :
  result (checkStock deno config) = Returned snapshot ->
  sr_sku snapshot = sku config /\
  forall response body,
    fetch deno (checkStock_url config) headers = Returned response ->
    json_body response = Returned body ->
    body = None \/ body = Some [] ->
    sr_name snapshot = Some EmptyString /\
    subject snapshot = "Stock Alert: " ++ sku config ++ " Available at Canadian Tire" /\
    runCheck_shown_name snapshot = "Unknown".
Proof.
  intros Hr.
  destruct (checkStock_returned_inv _ Hr) as (response & body & Hf & Hok & Hb & ->).
  split; [apply parse_response_sku|].
  intros response' body' Hf' Hb' Hbody.
  rewrite Hf in Hf'. injection Hf' as <-.
  rewrite Hb in Hb'. injection Hb' as <-.
  rewrite (parse_response_empty _ Hbody).
  now repeat split.
Qed.

End StockChecker.

(* ================================================================= *)
(** ** The Notifier *)

Section Notifier.

Context {number : Type} {JSN : JSNumber number}.
Variable deno : Deno number.

Implicit Types (config : Config number) (stockInfo : StockResponse number).

(** No store passes the filter when every quantity is zero. *)
Lemma storesWithStock_all_zero stockInfo :
  Forall (fun entry => quantity entry = num_zero) (sr_stores stockInfo) ->
  storesWithStock stockInfo = [].
Proof.
  unfold storesWithStock.
  induction 1 as [|entry entries Hz _ IH]; simpl; [reflexivity|].
  now rewrite Hz, num_zero_gt0.
Qed.

(** A store with a positive quantity passes the filter. *)
Lemma storesWithStock_some stockInfo (entry : StoreStock number) :
  In entry (sr_stores stockInfo) ->
  num_gt0 (quantity entry) = true ->
  Nat.eqb (length (storesWithStock stockInfo)) 0 = false.
Proof.
  intros Hin Hgt.
  assert (Hin' : In entry (storesWithStock stockInfo))
    by (apply filter_In; auto).
  destruct (storesWithStock stockInfo); [contradiction | reflexivity].
Qed.

(** The shape of a notification with something to report: the body of the
    [try] runs, and a throw is logged. *)
Lemma sendNotification_with_in_stock smtp config stockInfo :
  Nat.eqb (length (storesWithStock stockInfo)) 0 = false ->
  sendNotification_with smtp (config, stockInfo)
  = try_catch (sendNotification_try smtp config stockInfo)
              (fun error => console_error "Error sending notification:" error)
              (config, stockInfo).
Proof.
  intros Hne. unfold sendNotification_with, bind, get. simpl. rewrite Hne.
  destruct (try_catch _ _ _). simpl. reflexivity.
Qed.

Lemma sendNotification_with_returns smtp config stockInfo :
  result (sendNotification_with smtp (config, stockInfo)) = Returned tt.
Proof.
  destruct (Nat.eqb (length (storesWithStock stockInfo)) 0) eqn:Hlen.
  - unfold sendNotification_with, bind, get. simpl. now rewrite Hlen.
  - rewrite (sendNotification_with_in_stock _ _ _ Hlen).
    apply try_catch_log_returns.
Qed.

(** C5. [sendNotification] returns normally for every configuration and
    every snapshot, in both versions of the script; an error raised while
    formatting or delivering is written to the error log by the Notifier
    itself; and the cycle of the Scheduler, [runCheck], returns normally
    as well. *)
Theorem sendNotification_never_throws config stockInfo :
  result (sendNotification deno (config, stockInfo)) = Returned tt /\
  result (sendNotification_part000 deno (config, stockInfo)) = Returned tt /\
  (forall e,
      storesWithStock stockInfo <> [] ->
      result (sendNotification_try (smtp_branch deno) config stockInfo
                                   (config, stockInfo)) = Thrown e ->
      In (ConsoleError "Error sending notification:" e)
         (trace (sendNotification deno (config, stockInfo)))) /\
  result (runCheck deno config) = Returned tt.
Proof.
  repeat split.
  - apply sendNotification_with_returns.
  - apply sendNotification_with_returns.
  - intros e Hne Hthrown. unfold sendNotification.
    rewrite sendNotification_with_in_stock
      by (destruct (storesWithStock stockInfo); [contradiction | reflexivity]).
    rewrite (try_catch_log_thrown _ _ _ Hthrown). cbn [trace].
    apply in_or_app; right; left; reflexivity.
  - apply try_catch_log_returns.
Qed.

(** C6. When every entry of the snapshot has quantity 0, [sendNotification]
    only logs that it skips the notification: it makes no other call into
    the platform (no mail relay, no notification output), raises nothing,
    and leaves the configuration and the snapshot as they were.  Both
    versions of the script behave so. *)
Theorem sendNotification_all_zero config stockInfo :
  Forall (fun entry => quantity entry = num_zero) (sr_stores stockInfo) ->
  sendNotification deno (config, stockInfo)
  = mkRes (config, stockInfo)
          [ConsoleLog "No stock available, skipping notification"]
          (Returned tt)
  /\
  sendNotification_part000 deno (config, stockInfo)
  = mkRes (config, stockInfo)
          [ConsoleLog "No stock available, skipping notification"]
          (Returned tt).
Proof.
  intros Hzero.
  unfold sendNotification, sendNotification_part000, sendNotification_with, bind, get.
  simpl. now rewrite (storesWithStock_all_zero _ Hzero).
Qed.

(** The validation of main.ts 263-265. *)
Lemma missing_host_or_port (ec : EmailConfig number) :
  host ec = None \/ port ec = None ->
  negb (opt_truthy (host ec)) || negb (num_opt_truthy (port ec)) = true.
Proof.
  intros [-> | ->]; simpl; [reflexivity | apply orb_true_r].
Qed.

(** C7. In delivery mode [smtp] with no host (or no port), and a snapshot
    with an entry in stock, the body of [sendNotification] fails with
    [EmailConfigError] before any call into the platform; the Notifier
    writes that error to the error log and makes no other call (no mail
    relay, no temporary file).  Both versions of the script behave so. *)
Theorem sendNotification_smtp_missing_host config stockInfo
        (entry : StoreStock number) :
  provider (emailConfig config) = "smtp" ->
  host (emailConfig config) = None \/ port (emailConfig config) = None ->
  In entry (sr_stores stockInfo) ->
  num_gt0 (quantity entry) = true ->
  sendNotification_try (smtp_branch deno) config stockInfo (config, stockInfo)
  = mkRes (config, stockInfo) [] (Thrown EmailConfigError)
  /\
  sendNotification deno (config, stockInfo)
  = mkRes (config, stockInfo)
          [ConsoleError "Error sending notification:" EmailConfigError]
          (Returned tt)
  /\
  sendNotification_part000 deno (config, stockInfo)
  = mkRes (config, stockInfo)
          [ConsoleError "Error sending notification:" EmailConfigError]
          (Returned tt).
Proof.
  intros Hsmtp Hmissing Hin Hgt.
  pose proof (storesWithStock_some _ _ Hin Hgt) as Hlen.
  pose proof (missing_host_or_port _ Hmissing) as Hcheck.
  unfold sendNotification, sendNotification_part000.
  rewrite !sendNotification_with_in_stock by assumption.
  unfold try_catch, sendNotification_try, smtp_branch, smtp_branch_part000, bind, when.
  rewrite Hsmtp. simpl. rewrite Hcheck. simpl. auto.
Qed.


(** A price of 0 passes for no price, in every model of numbers. *)
Lemma store_info_zero_price (entry : StoreStock number) :
  price entry = Some num_zero ->
  store_info entry
  = store_info (mkStoreStock (store entry) (quantity entry) (name entry)
                             (location entry) None).
Proof.
  intros Hp. unfold store_info. rewrite Hp. cbn [price name store quantity location].
  now rewrite num_zero_truthy.
Qed.



End Notifier.

(* ================================================================= *)
(** ** The Configuration Loader *)

Section ConfigurationLoader.

Context {number : Type} {JSN : JSNumber number}.
Variable deno : Deno number.

(** C3 (amended). [loadConfig] fails with [ConfigLoadError] whenever
    [config.json] cannot be read or is not valid JSON, after logging the
    cause; otherwise it returns the value [JSON.parse] produced, as it is,
    whether or not the fields of the Configuration shape are present and
    well-formed. *)
Theorem loadConfig_outcomes :
  (forall e,
      Deno_readTextFile deno "./config.json" = Thrown e ->
      loadConfig deno tt
      = mkRes tt [ReadTextFile "./config.json";
                  ConsoleError "Error loading config.json:" e]
              (Thrown ConfigLoadError)) /\
  (forall configText e,
      Deno_readTextFile deno "./config.json" = Returned configText ->
      JSON_parse deno configText = Thrown e ->
      loadConfig deno tt
      = mkRes tt [ReadTextFile "./config.json";
                  ConsoleError "Error loading config.json:" e]
              (Thrown ConfigLoadError)) /\
  (forall configText parsed,
      Deno_readTextFile deno "./config.json" = Returned configText ->
      JSON_parse deno configText = Returned parsed ->
      loadConfig deno tt
      = mkRes tt [ReadTextFile "./config.json"] (Returned parsed)).
Proof.
  unfold loadConfig, try_catch, bind, platform, eval, console_error, throw, ret.
  repeat split.
  - intros e Hread. simpl. now rewrite Hread.
  - intros configText e Hread Hparse. simpl. rewrite Hread. simpl. now rewrite Hparse.
  - intros configText parsed Hread Hparse. simpl. rewrite Hread. simpl.
    now rewrite Hparse.
Qed.

End ConfigurationLoader.

(* ================================================================= *)
(** ** The theorems on the scenarios *)

Import Scenario.

(** The first end-to-end scenario: the endpoint returns the widget record
    for store 0459 only. *)
Lemma checkStock_nonempty_array_widget :
  exists snapshot,
    result (checkStock (endpoint [widget]) config) = Returned snapshot /\
    length (sr_stores snapshot) = length [widget] /\
    Forall2 (fun item entry =>
               store entry = Store item /\ quantity entry = Quantity item)
            [widget] (sr_stores snapshot) /\
    sr_name snapshot = Some (Description widget).
Proof.
  apply (@checkStock_nonempty_array N Hundredths.number (endpoint [widget]) config
           (mkResponse 200 (Returned (Some [widget]))) widget []);
    reflexivity.
Defined.

(** The second end-to-end scenario: the endpoint returns the empty array. *)
Lemma checkStock_empty_array_two_stores :
  exists snapshot,
    result (checkStock (endpoint []) config) = Returned snapshot /\
    map (@store N) (sr_stores snapshot) = stores config /\
    Forall (fun entry =>
              quantity entry = num_zero /\ name entry = None /\
              location entry = None /\ price entry = None)
           (sr_stores snapshot).
Proof.
  apply (@checkStock_empty_array N Hundredths.number (endpoint []) config
           (mkResponse 200 (Returned (Some []))));
    reflexivity.
Defined.

(** [config.json] holds [{}]: valid JSON with none of the required fields.
    [loadConfig] returns the empty object instead of failing. *)
Lemma loadConfig_accepts_empty_object :
  Deno_readTextFile (endpoint []) "./config.json" = Returned "{}" /\
  JSON_parse (endpoint []) "{}" = Returned (JObj []) /\
  conforms_Config (JObj [] : json N) = false /\
  result (loadConfig (endpoint []) tt) = Returned (JObj []) /\
  result (loadConfig (endpoint []) tt) <> Thrown ConfigLoadError.
Proof. repeat split; discriminate. Qed.

(** [loadConfig] on a [config.json] that holds [{}]. *)
Lemma loadConfig_outcomes_empty_object :
  loadConfig (endpoint []) tt
  = mkRes tt [ReadTextFile "./config.json"] (Returned (JObj [])).
Proof.
  apply (proj2 (proj2 (@loadConfig_outcomes N (endpoint []))) "{}" (JObj []));
    reflexivity.
Defined.

(** The endpoint answers 503: the error that reaches the caller does not
    mention the status. *)
Lemma checkStock_error_drops_status :
  Response_ok (mkResponse (number:=N) 503 (Returned None)) = false /\
  exists e,
    result (checkStock (endpoint_down 503) config) = Thrown e /\
    ~ Substring (N_toString 503) (error_message e).
Proof.
  split; [reflexivity|].
  exists StockCheckError. split; [reflexivity|].
  intros H. apply includes_Substring in H. vm_compute in H. discriminate.
Qed.

(** The endpoint answers 503: what [checkStock] does. *)
Lemma checkStock_non_success_status_503 :
  result (checkStock (endpoint_down 503) config) = Thrown StockCheckError /\
  error_message StockCheckError = "Failed to check stock availability" /\
  exists inner,
    In (ConsoleError "Error checking stock:" inner)
       (trace (checkStock (endpoint_down 503) config)) /\
    Substring (N_toString (status (mkResponse (number:=N) 503 (Returned None))))
              (error_message inner).
Proof.
  apply (@checkStock_non_success_status N Hundredths.number (endpoint_down 503) config
           (mkResponse 503 (Returned None)));
    reflexivity.
Defined.

(** SMTP mode without a host, one store in stock: the error is logged and
    nothing is thrown. *)
Lemma sendNotification_never_throws_no_host :
  In (ConsoleError "Error sending notification:" EmailConfigError)
     (trace (sendNotification (endpoint []) (config_with smtp_no_host, two_stores))).
Proof.
  apply (proj1 (proj2 (proj2
           (@sendNotification_never_throws N Hundredths.number (endpoint [])
              (config_with smtp_no_host) two_stores))));
    [discriminate | reflexivity].
Defined.

(** Every store sold out. *)
Lemma sendNotification_all_zero_sold_out :
  sendNotification (endpoint []) (config, sold_out)
  = mkRes (config, sold_out)
          [ConsoleLog "No stock available, skipping notification"] (Returned tt)
  /\
  sendNotification_part000 (endpoint []) (config, sold_out)
  = mkRes (config, sold_out)
          [ConsoleLog "No stock available, skipping notification"] (Returned tt).
Proof.
  apply (@sendNotification_all_zero N Hundredths.number (endpoint []) config sold_out).
  repeat constructor.
Defined.

(** SMTP mode without a host, one store in stock. *)
Lemma sendNotification_smtp_missing_host_two_stores :
  sendNotification_try (smtp_branch (endpoint [])) (config_with smtp_no_host) two_stores
                       (config_with smtp_no_host, two_stores)
  = mkRes (config_with smtp_no_host, two_stores) [] (Thrown EmailConfigError)
  /\
  sendNotification (endpoint []) (config_with smtp_no_host, two_stores)
  = mkRes (config_with smtp_no_host, two_stores)
          [ConsoleError "Error sending notification:" EmailConfigError] (Returned tt)
  /\
  sendNotification_part000 (endpoint []) (config_with smtp_no_host, two_stores)
  = mkRes (config_with smtp_no_host, two_stores)
          [ConsoleError "Error sending notification:" EmailConfigError] (Returned tt).
Proof.
  apply (@sendNotification_smtp_missing_host N Hundredths.number (endpoint [])
           (config_with smtp_no_host) two_stores
           (mkStoreStock "0459" (Hundredths.of_int 3) (Some "Canadian Tire 0459")
                         (Some "Aisle 12") (Some (Hundredths.of_cents 19 99))));
    [reflexivity | left; reflexivity | left; reflexivity | reflexivity].
Defined.



(** The link of the notification in the first end-to-end scenario. *)
Lemma notification_link_widget :
  In (Fetch (checkStock_url config) headers) (trace (checkStock (endpoint [widget]) config)) /\
  html_href config (parse_response config (Some [widget])) = checkStock_url config /\
  Substring ("<a href=" ++ dq ++ checkStock_url config ++ dq ++ ">StockTrack</a>")
            (htmlContent config (parse_response config (Some [widget]))).
Proof.
  apply (@notification_link_is_query_url N Hundredths.number (endpoint [widget]) config
           (parse_response config (Some [widget]))).
  reflexivity.
Defined.

(** The empty array: the log line of the cycle shows [Unknown], not the SKU. *)
Lemma runCheck_empty_array_shows_Unknown :
  exists snapshot,
    result (checkStock (endpoint []) config) = Returned snapshot /\
    sr_name snapshot = Some EmptyString /\
    runCheck_shown_name snapshot <> sku config /\
    In (ConsoleLog "Stock information for SKU 1502321 (Unknown):")
       (trace (runCheck (endpoint []) config)) /\
    ~ In (ConsoleLog "Stock information for SKU 1502321 (1502321):")
         (trace (runCheck (endpoint []) config)).
Proof.
  exists (parse_response config (Some [])).
  repeat split.
  - discriminate.
  - vm_compute. auto 10.
  - vm_compute. intuition discriminate.
Qed.

(** The empty array: the SKU and the fallbacks of the product name. *)
Lemma checkStock_sku_and_name_fallback_empty :
  sr_name (parse_response config (Some [])) = Some EmptyString /\
  subject (parse_response config (Some []))
  = "Stock Alert: " ++ sku config ++ " Available at Canadian Tire" /\
  runCheck_shown_name (parse_response config (Some [])) = "Unknown".
Proof.
  apply (proj2 (@checkStock_sku_and_name_fallback N Hundredths.number (endpoint []) config
                  (parse_response config (Some [])) eq_refl)
               (mkResponse 200 (Returned (Some []))) (Some []));
    [reflexivity | reflexivity | right; reflexivity].
Defined.

(** The first end-to-end scenario in console mode: the cycle prints a
    notification that names the product, the quantity and the price, and
    calls nothing but the endpoint. *)
Example runCheck_widget_console :
  result (runCheck (endpoint [widget]) config) = Returned tt /\
  In (ConsoleLog "Subject: Stock Alert: Widget Available at Canadian Tire")
     (trace (runCheck (endpoint [widget]) config)) /\
  In (ConsoleLog "  Canadian Tire 0459: 3 in stock at $19.99")
     (trace (runCheck (endpoint [widget]) config)) /\
  includes "Canadian Tire 0459: 3 in stock at $19.99"
           (plainTextContent config (parse_response config (Some [widget]))) = true /\
  In (ConsoleLog (plainTextContent config (parse_response config (Some [widget]))))
     (trace (runCheck (endpoint [widget]) config)) /\
  forallb (fun ev => match ev with
                     | ConsoleLog _ | Fetch _ _ | ResponseJson => true
                     | _ => false
                     end)
          (trace (runCheck (endpoint [widget]) config)) = true.
Proof. vm_compute. repeat split; auto 20. Qed.

(** The second end-to-end scenario: two entries of quantity 0 and no
    notification. *)
Example runCheck_empty_console :
  trace (runCheck (endpoint []) config)
  = [ ConsoleLog "Checking stock at 11/2/2026, 10:00:00 AM...";
      ConsoleLog ("Fetching data from: " ++ checkStock_url config);
      Fetch (checkStock_url config) headers;
      ResponseJson;
      ConsoleLog "Stock information for SKU 1502321 (Unknown):";
      ConsoleLog "  0459: 0 in stock";
      ConsoleLog "  0150: 0 in stock";
      ConsoleLog "No stock available at any store." ].
Proof. reflexivity. Qed.

(** The mail relay exits with code 1: the delivery error is logged and the
    Notifier returns. *)
Example sendNotification_relay_fails :
  let deno := platform_with (Returned "{}") 200 (Returned None) 1 in
  let cause := new_Error "Mail command failed with code 1: mail: cannot send" in
  result (sendNotification deno (config_with smtp_settings, two_stores)) = Returned tt /\
  In (ConsoleError "SMTP error:" cause)
     (trace (sendNotification deno (config_with smtp_settings, two_stores))) /\
  In (ConsoleError "Error sending notification:" (EmailDeliveryError cause))
     (trace (sendNotification deno (config_with smtp_settings, two_stores))).
Proof. vm_compute. repeat split; auto 20. Qed.

(** A missing or malformed [config.json] is fatal. *)
Example loadConfig_missing_file :
  result (loadConfig
            (platform_with (Thrown (mkError "NotFound" "No such file or directory"))
                           200 (Returned None) 0) tt)
  = Thrown ConfigLoadError.
Proof. reflexivity. Qed.

Example loadConfig_malformed_file :
  result (loadConfig (platform_with (Returned "{") 200 (Returned None) 0) tt)
  = Thrown ConfigLoadError.
Proof. reflexivity. Qed.

(* ================================================================= *)
(** ** Further facts about the monad *)

Lemma stateless_ret {S A} (a : A) : stateless (@ret S A a).
Proof. now exists [], (Returned a). Qed.

Lemma stateless_throw {S A} (e : error) : stateless (@throw S A e).
Proof. now exists [], (Thrown e). Qed.

Lemma stateless_platform {S A} (ev : event) (answer : outcome A) :
  stateless (@platform S A ev answer).
Proof. now exists [ev], answer. Qed.

Lemma stateless_bind {S A B} (m : M S A) (k : A -> M S B) :
  stateless m -> (forall a, stateless (k a)) -> stateless (bind m k).
Proof.
  intros (t & r & Hm) Hk. destruct r as [a|e].
  - destruct (Hk a) as (t' & r' & Hk').
    exists (t ++ t')%list, r'. intros s. unfold bind. rewrite Hm. simpl.
    now rewrite Hk'.
  - exists t, (Thrown e). intros s. unfold bind. now rewrite Hm.
Qed.

Lemma stateless_try_catch {S A} (body : M S A) (handler : error -> M S A) :
  stateless body -> (forall e, stateless (handler e)) ->
  stateless (try_catch body handler).
Proof.
  intros (t & r & Hm) Hh. destruct r as [a|e].
  - exists t, (Returned a). intros s. unfold try_catch. now rewrite Hm.
  - destruct (Hh e) as (t' & r' & Hh').
    exists (t ++ t')%list, r'. intros s. unfold try_catch. rewrite Hm. simpl.
    now rewrite Hh'.
Qed.

Lemma stateless_try_finally {S A} (body : M S A) (fin : M S unit) :
  stateless body -> stateless fin -> stateless (try_finally body fin).
Proof.
  intros (t & r & Hm) (t' & r' & Hf).
  exists (t ++ t')%list,
         (match r' with Returned _ => r | Thrown e => Thrown e end).
  intros s. unfold try_finally. rewrite Hm. simpl. now rewrite Hf.
Qed.

Lemma stateless_when {S} (c : bool) (m : M S unit) :
  stateless m -> stateless (when c m).
Proof. destruct c; [auto | intros _; apply stateless_ret]. Qed.

(** A stateless computation hands back the objects it was given. *)
Lemma stateless_final {S A} (m : M S A) (s : S) : stateless m -> final (m s) = s.
Proof. intros (t & r & Hm). now rewrite Hm. Qed.

(** Its calls and its outcome do not depend on those objects. *)
Lemma stateless_same {S A} (m : M S A) (s s' : S) :
  stateless m -> trace (m s) = trace (m s') /\ result (m s) = result (m s').
Proof. intros (t & r & Hm). now rewrite !Hm. Qed.

Lemma emits_ret {S A} P (a : A) : emits P (@ret S A a).
Proof. now intros s. Qed.

Lemma emits_throw {S A} P (e : error) : emits P (@throw S A e).
Proof. now intros s. Qed.

Lemma emits_get {S} P : emits P (@get S).
Proof. now intros s. Qed.

Lemma emits_platform {S A} (P : event -> bool) (ev : event) (answer : outcome A) :
  P ev = true -> emits P (@platform S A ev answer).
Proof. intros Hev s. simpl. now rewrite Hev. Qed.

Lemma emits_bind {S A B} P (m : M S A) (k : A -> M S B) :
  emits P m -> (forall a, emits P (k a)) -> emits P (bind m k).
Proof.
  intros Hm Hk s. unfold bind. specialize (Hm s).
  destruct (result (m s)) as [a|e]; simpl; [|exact Hm].
  rewrite forallb_app, Hm. apply Hk.
Qed.

Lemma emits_try_catch {S A} P (body : M S A) (handler : error -> M S A) :
  emits P body -> (forall e, emits P (handler e)) -> emits P (try_catch body handler).
Proof.
  intros Hm Hh s. unfold try_catch. specialize (Hm s).
  destruct (result (body s)) as [a|e]; simpl; [exact Hm|].
  rewrite forallb_app, Hm. apply Hh.
Qed.

Lemma emits_try_finally {S A} P (body : M S A) (fin : M S unit) :
  emits P body -> emits P fin -> emits P (try_finally body fin).
Proof.
  intros Hm Hf s. unfold try_finally. simpl.
  rewrite forallb_app, (Hm s). apply Hf.
Qed.

Lemma emits_when {S} P (c : bool) (m : M S unit) : emits P m -> emits P (when c m).
Proof. destruct c; [auto | intros _; apply emits_ret]. Qed.

(** A loop that only prints. *)
Lemma for_of_console_log {S A} (f : A -> string) (l : list A) (s : S) :
  for_of l (fun x => console_log (f x)) s
  = mkRes s (map (fun x => ConsoleLog (f x)) l) (Returned tt).
Proof.
  induction l as [|x l IH]; [reflexivity|].
  simpl. unfold bind. simpl. now rewrite IH.
Qed.

(** [finally] adds the calls of its block after those of the body. *)
Lemma try_finally_trace {S A} (body : M S A) (fin : M S unit) (s : S) :
  trace (try_finally body fin s) = (trace (body s) ++ trace (fin (final (body s))))%list.
Proof. reflexivity. Qed.

(** A [finally] block that returns leaves the outcome of the body. *)
Lemma try_finally_result {S A} (body : M S A) (fin : M S unit) (s : S) :
  result (fin (final (body s))) = Returned tt ->
  result (try_finally body fin s) = result (body s).
Proof. unfold try_finally. simpl. now intros ->. Qed.

(* ================================================================= *)
(** ** Further properties of the Stock Checker *)

Section StockCheckerMore.

Context {number : Type} {JSN : JSNumber number}.
Variable deno : Deno number.

Lemma Response_ok_range (response : Response number) :
  Response_ok response = true <-> (200 <= status response <= 299)%N.
Proof.
  unfold Response_ok. rewrite andb_true_iff, !N.leb_le. reflexivity.
Qed.

(** The configuration comes out of a check as it went in. *)
Lemma checkStock_final (config : Config number) :
  final (checkStock deno config) = config.
Proof.
  destruct (fetch deno (checkStock_url config) headers) as [response|e] eqn:Hf.
  - destruct (Response_ok response) eqn:Hok.
    + destruct (json_body response) as [body|e] eqn:Hb.
      * now rewrite (checkStock_success deno config Hf Hok Hb).
      * now rewrite (checkStock_decode_fails deno config Hf Hok Hb).
    + now rewrite (checkStock_bad_status deno config Hf Hok).
  - now rewrite (checkStock_fetch_fails deno config Hf).
Qed.

(** X1. [checkStock] returns a snapshot exactly when the request is
    answered, the status is between 200 and 299, and the body decodes; the
    snapshot is then the one built from the decoded body. *)
Theorem checkStock_returns_iff (config : Config number) (snapshot : StockResponse number) :
  result (checkStock deno config) = Returned snapshot <->
  exists response body,
    fetch deno (checkStock_url config) headers = Returned response /\
    (200 <= status response <= 299)%N /\
    json_body response = Returned body /\
    snapshot = parse_response config body.
Proof.
  split.
  - intros Hr.
    destruct (checkStock_returned_inv deno config Hr) as (response & body & Hf & Hok & Hb & E).
    exists response, body. now rewrite <- Response_ok_range.
  - intros (response & body & Hf & Hrange & Hb & ->).
    apply Response_ok_range in Hrange.
    now rewrite (checkStock_success deno config Hf Hrange Hb).
Qed.

(** X2. Whatever goes wrong in a check, the caller receives the same
    [StockCheckError], and the last thing the check did was to write the
    cause to the error log: the error [fetch] threw when the request could
    not be sent, the error naming the status when the status is not a
    success, the error [response.json()] threw when the body does not
    decode.  Nothing was read from a response that was refused. *)
Theorem checkStock_fails_uniformly (config : Config number) (e : error) :
  result (checkStock deno config) = Thrown e ->
  e = StockCheckError /\
  exists before cause,
    trace (checkStock deno config)
    = (request_trace config ++ before
         ++ [ConsoleError "Error checking stock:" cause])%list /\
    ((fetch deno (checkStock_url config) headers = Thrown cause /\ before = [])
     \/
     (exists response,
         fetch deno (checkStock_url config) headers = Returned response /\
         (status response < 200 \/ 299 < status response)%N /\
         cause = new_Error ("HTTP error! status: " ++ N_toString (status response)) /\
         before = [])
     \/
     (exists response,
         fetch deno (checkStock_url config) headers = Returned response /\
         (200 <= status response <= 299)%N /\
         json_body response = Thrown cause /\
         before = [ResponseJson])).
Proof.
  intros Hr.
  destruct (fetch deno (checkStock_url config) headers) as [response|e'] eqn:Hf.
  - destruct (Response_ok response) eqn:Hok.
    + destruct (json_body response) as [body|e'] eqn:Hb.
      * rewrite (checkStock_success deno config Hf Hok Hb) in Hr. discriminate.
      * rewrite (checkStock_decode_fails deno config Hf Hok Hb) in *.
        injection Hr as <-. split; [reflexivity|].
        exists [ResponseJson], e'. cbn [trace]. split; [reflexivity|].
        right. right. exists response. apply Response_ok_range in Hok. auto.
    + rewrite (checkStock_bad_status deno config Hf Hok) in *.
      injection Hr as <-. split; [reflexivity|].
      exists [], (new_Error ("HTTP error! status: " ++ N_toString (status response))).
      cbn [trace app]. split; [reflexivity|].
      right. left. exists response. repeat split; auto.
      assert (Hnot : ~ (200 <= status response <= 299)%N)
        by (rewrite <- Response_ok_range, Hok; discriminate).
      lia.
  - rewrite (checkStock_fetch_fails deno config Hf) in *.
    injection Hr as <-. split; [reflexivity|].
    exists [], e'. cbn [trace app]. split; [reflexivity|]. left. auto.
Qed.

(** X3. Every check sends exactly one request, to the URL of the
    configuration and with the browser headers; it never retries.  Apart
    from that request and reading its body, a check only writes to the
    console: it touches neither files nor the mail relay. *)
Theorem checkStock_one_request (config : Config number) :
  filter is_Fetch (trace (checkStock deno config))
  = [Fetch (checkStock_url config) headers] /\
  forallb is_console_or_network (trace (checkStock deno config)) = true.
Proof.
  destruct (fetch deno (checkStock_url config) headers) as [response|e] eqn:Hf.
  - destruct (Response_ok response) eqn:Hok.
    + destruct (json_body response) as [body|e] eqn:Hb.
      * now rewrite (checkStock_success deno config Hf Hok Hb).
      * now rewrite (checkStock_decode_fails deno config Hf Hok Hb).
    + now rewrite (checkStock_bad_status deno config Hf Hok).
  - now rewrite (checkStock_fetch_fails deno config Hf).
Qed.

(** X4. Every entry built from a record of the response is named
    [Canadian Tire] followed by the store identifier, carries the record's
    price, and carries the aisle as its location exactly when the record
    has a [Location]. *)
Theorem checkStock_entry_details (config : Config number) (response : Response number)
        (first : StockTrackItem number) (rest : list (StockTrackItem number)) :
  fetch deno (checkStock_url config) headers = Returned response ->
  Response_ok response = true ->
  json_body response = Returned (Some (first :: rest)) ->
  exists snapshot,
    result (checkStock deno config) = Returned snapshot /\
    Forall2 (fun item entry =>
               name entry = Some ("Canadian Tire " ++ Store item) /\
               price entry = Some (Price item) /\
               match Location item with
               | Some place => location entry = Some (Aisle place)
               | None => location entry = None
               end)
            (first :: rest) (sr_stores snapshot).
Proof.
  intros Hf Hok Hb.
  exists (parse_response config (Some (first :: rest))).
  rewrite (checkStock_success deno config Hf Hok Hb), parse_response_nonempty.
  cbn [result sr_stores]. split; [reflexivity|].
  generalize (first :: rest) as items.
  induction items as [|item items IH]; simpl; constructor; auto.
  unfold stock_of_item; cbn [name price location].
  repeat split. now destruct (Location item).
Qed.

(** X5. When the response holds at least one record, the stores of the
    snapshot are those of the response and the configured list is not
    consulted: a configured store that the response leaves out gets no
    entry, and a store that was not requested gets one. *)
Theorem checkStock_trusts_response (config : Config number) (response : Response number)
        (first : StockTrackItem number) (rest : list (StockTrackItem number)) :
  fetch deno (checkStock_url config) headers = Returned response ->
  Response_ok response = true ->
  json_body response = Returned (Some (first :: rest)) ->
  exists snapshot,
    result (checkStock deno config) = Returned snapshot /\
    map (@store number) (sr_stores snapshot) = map (@Store number) (first :: rest) /\
    (forall id, In id (stores config) ->
                ~ In id (map (@Store number) (first :: rest)) ->
                forall entry, In entry (sr_stores snapshot) -> store entry <> id) /\
    (forall item, In item (first :: rest) ->
                  exists entry, In entry (sr_stores snapshot) /\ store entry = Store item).
Proof.
  intros Hf Hok Hb.
  exists (parse_response config (Some (first :: rest))).
  rewrite (checkStock_success deno config Hf Hok Hb), parse_response_nonempty.
  cbn [result sr_stores].
  assert (Hmap : map (@store number) (map stock_of_item (first :: rest))
                 = map (@Store number) (first :: rest))
    by (rewrite map_map; reflexivity).
  repeat split; auto.
  - intros id _ Hout entry Hin Hid. apply Hout.
    rewrite <- Hmap, <- Hid. now apply in_map.
  - intros item Hin. exists (stock_of_item item). split; [now apply in_map | reflexivity].
Qed.

End StockCheckerMore.

(* ================================================================= *)
(** ** Running a computation step by step *)

Lemma run_ret {S A} (a : A) (s : S) : ret a s = mkRes s [] (Returned a).
Proof. reflexivity. Qed.

Lemma run_platform {S A} (ev : event) (answer o : outcome A) (s : S) :
  answer = o -> platform ev answer s = mkRes s [ev] o.
Proof. now intros ->. Qed.

Lemma run_console_log {S} (line : string) (s : S) :
  console_log line s = mkRes s [ConsoleLog line] (Returned tt).
Proof. reflexivity. Qed.

Lemma run_console_error {S} (label : string) (e : error) (s : S) :
  console_error label e s = mkRes s [ConsoleError label e] (Returned tt).
Proof. reflexivity. Qed.

Lemma run_bind {S A B} (m : M S A) (k : A -> M S B)
      (s s1 s2 : S) (t1 t2 : list event) (a : A) (r : outcome B) :
  m s = mkRes s1 t1 (Returned a) ->
  k a s1 = mkRes s2 t2 r ->
  bind m k s = mkRes s2 (t1 ++ t2)%list r.
Proof. unfold bind. intros ->. simpl. now intros ->. Qed.

Lemma run_bind_thrown {S A B} (m : M S A) (k : A -> M S B)
      (s s1 : S) (t1 : list event) (e : error) :
  m s = mkRes s1 t1 (Thrown e) ->
  bind m k s = mkRes s1 t1 (Thrown e).
Proof. unfold bind. now intros ->. Qed.

Lemma run_try_catch_returned {S A} (body : M S A) (handler : error -> M S A)
      (s s1 : S) (t1 : list event) (a : A) :
  body s = mkRes s1 t1 (Returned a) ->
  try_catch body handler s = mkRes s1 t1 (Returned a).
Proof. unfold try_catch. now intros ->. Qed.

Lemma run_try_catch_thrown {S A} (body : M S A) (handler : error -> M S A)
      (s s1 s2 : S) (t1 t2 : list event) (e : error) (r : outcome A) :
  body s = mkRes s1 t1 (Thrown e) ->
  handler e s1 = mkRes s2 t2 r ->
  try_catch body handler s = mkRes s2 (t1 ++ t2)%list r.
Proof. unfold try_catch. intros ->. simpl. now intros ->. Qed.

Lemma run_try_finally {S A} (body : M S A) (fin : M S unit)
      (s s1 s2 : S) (t1 t2 : list event) (r1 : outcome A) (r2 : outcome unit) :
  body s = mkRes s1 t1 r1 ->
  fin s1 = mkRes s2 t2 r2 ->
  try_finally body fin s
  = mkRes s2 (t1 ++ t2)%list
          (match r2 with Returned _ => r1 | Thrown e => Thrown e end).
Proof. unfold try_finally. intros ->. simpl. now intros ->. Qed.

Lemma run_throw {S A} (e : error) (s : S) : @throw S A e s = mkRes s [] (Thrown e).
Proof. reflexivity. Qed.

(** Conclude a run from its steps. *)
Lemma run_eq {S A} (m : M S A) (s s' : S) (t t' : list event) (r r' : outcome A) :
  m s = mkRes s' t r -> t = t' -> r = r' -> m s = mkRes s' t' r'.
Proof. now intros -> -> ->. Qed.

(** One step of a run: a call whose answer is among the hypotheses, a line
    on the console, or the end of a block. *)
Ltac run_call :=
  first [ apply run_console_log | apply run_console_error | apply run_ret
        | apply run_throw
        | apply run_platform; eassumption
        | apply run_platform; reflexivity ].

Ltac run_step :=
  first [ run_call
        | eapply run_bind; [run_call | cbv beta]
        | eapply run_bind_thrown; run_call ].

Ltac run := repeat run_step.

(* ================================================================= *)
(** ** The mail relay (sendSmtpEmail) *)

Ltac stateless_tac :=
  unfold console_log, console_error;
  repeat first
    [ apply stateless_ret | apply stateless_throw | apply stateless_platform
    | apply stateless_when | apply stateless_try_finally
    | apply stateless_try_catch | apply stateless_bind
    | intros ? | progress cbv beta zeta ].

Ltac emits_tac :=
  unfold console_log, console_error;
  repeat first
    [ apply emits_ret | apply emits_throw | apply emits_get
    | apply emits_platform; reflexivity
    | apply emits_when | apply emits_try_finally
    | apply emits_try_catch | apply emits_bind
    | intros ? | progress cbv beta zeta ].

Lemma filter_none {A} (P : A -> bool) (l : list A) :
  forallb (fun x => negb (P x)) l = true -> filter P l = [].
Proof.
  induction l as [|x l IH]; simpl; [reflexivity|].
  destruct (P x); simpl; [discriminate | exact IH].
Qed.

Section MailRelay.

Context {number : Type} {JSN : JSNumber number}.
Variable deno : Deno number.
Variable S : Type.

Implicit Types (options : SmtpOptions number) (s : S).

(** [sendSmtpEmail] makes the temporary file, runs its [try] block and then
    its [finally] block. *)
Lemma sendSmtpEmail_blocks options :
  @sendSmtpEmail _ deno S options
  = (tempFile <- platform MakeTempFile (Deno_makeTempFile deno) ;;
     try_finally
       (sendSmtpEmail_try deno options tempFile)
       (try_catch
          (platform (Remove tempFile) (Deno_remove deno tempFile))
          (fun error => console_error "Error removing temp file:" error))).
Proof. reflexivity. Qed.

Lemma sendSmtpEmail_try_stateless options (tempFile : string) :
  stateless (sendSmtpEmail_try (S:=S) deno options tempFile).
Proof. unfold sendSmtpEmail_try. stateless_tac. Qed.

Lemma sendSmtpEmail_try_keeps_file options (tempFile : string) :
  emits (fun ev => negb (is_Remove ev)) (sendSmtpEmail_try (S:=S) deno options tempFile).
Proof. unfold sendSmtpEmail_try. emits_tac. Qed.

Lemma sendSmtpEmail_stateless options : stateless (@sendSmtpEmail _ deno S options).
Proof. unfold sendSmtpEmail. stateless_tac. Qed.

(** The relay only reads the sender, the recipient, the subject and the two
    bodies of its argument. *)
Lemma sendSmtpEmail_fields options options' :
  o_from options = o_from options' ->
  o_to options = o_to options' ->
  o_subject options = o_subject options' ->
  o_text options = o_text options' ->
  o_html options = o_html options' ->
  @sendSmtpEmail _ deno S options = sendSmtpEmail deno options'.
Proof.
  intros Hfrom Hto Hsubject Htext Hhtml. unfold sendSmtpEmail.
  now rewrite Hfrom, Hto, Hsubject, Htext, Hhtml.
Qed.

(** The run of [sendSmtpEmail] once the temporary file exists. *)
Lemma sendSmtpEmail_run options s (tempFile : string) :
  Deno_makeTempFile deno = Returned tempFile ->
  sendSmtpEmail deno options s
  = mkRes s
      (MakeTempFile
         :: trace (sendSmtpEmail_try deno options tempFile s)
         ++ Remove tempFile
            :: match Deno_remove deno tempFile with
               | Returned _ => []
               | Thrown e => [ConsoleError "Error removing temp file:" e]
               end)%list
      (result (sendSmtpEmail_try deno options tempFile s)).
Proof.
  intros Hmk. rewrite sendSmtpEmail_blocks.
  destruct (sendSmtpEmail_try_stateless options tempFile) as (tb & rb & Hb).
  rewrite Hb. cbn [trace result].
  destruct (Deno_remove deno tempFile) as [[]|e] eqn:Hrm.
  - eapply run_eq.
    + eapply run_bind; [run_call | cbv beta].
      eapply run_try_finally; [apply Hb|].
      eapply run_try_catch_returned. run_call.
    + reflexivity.
    + reflexivity.
  - eapply run_eq.
    + eapply run_bind; [run_call | cbv beta].
      eapply run_try_finally; [apply Hb|].
      eapply run_try_catch_thrown; run_call.
    + reflexivity.
    + reflexivity.
Qed.

(** X6. When no temporary file can be made, [sendSmtpEmail] stops there:
    the error of [Deno.makeTempFile] reaches the caller as it is, nothing is
    written, no command is run and nothing is removed. *)
Theorem sendSmtpEmail_no_temp_file options s (e : error) :
  Deno_makeTempFile deno = Thrown e ->
  sendSmtpEmail deno options s = mkRes s [MakeTempFile] (Thrown e).
Proof.
  intros Hmk. rewrite sendSmtpEmail_blocks.
  eapply run_bind_thrown. run_call.
Qed.

(** X7. Once the temporary file exists, [sendSmtpEmail] removes it exactly
    once, after everything else and whatever went wrong in between (the
    write, the spawn, the pipe, a non-zero exit). *)
Theorem sendSmtpEmail_removes_temp_file options s (tempFile : string) :
  Deno_makeTempFile deno = Returned tempFile ->
  filter is_Remove (trace (sendSmtpEmail deno options s)) = [Remove tempFile] /\
  exists before after,
    trace (sendSmtpEmail deno options s) = (before ++ Remove tempFile :: after)%list /\
    forallb is_console after = true.
Proof.
  intros Hmk. rewrite (sendSmtpEmail_run options s Hmk). cbn [trace]. split.
  - cbn [filter is_Remove]. rewrite filter_app.
    rewrite (filter_none _ _ (sendSmtpEmail_try_keeps_file options tempFile s)).
    cbn [app filter is_Remove].
    destruct (Deno_remove deno tempFile); reflexivity.
  - eexists (MakeTempFile :: trace (sendSmtpEmail_try deno options tempFile s)).
    eexists. split; [reflexivity|].
    destruct (Deno_remove deno tempFile); reflexivity.
Qed.

(** X9. When every step up to the exit of the [mail] command goes through,
    the exit code decides: code 0 is a delivery, reported on the console;
    any other code is an error that carries the code and what the command
    wrote to its error stream.  The command is given the subject, the
    sender and the recipient, and is fed what was read back from the
    temporary file. *)
Theorem sendSmtpEmail_exit_code options s
        (tempFile fileContent errorOutput : string) (code : N) :
  Deno_makeTempFile deno = Returned tempFile ->
  Deno_writeTextFile deno tempFile (opt_or (o_html options) (o_text options))
  = Returned tt ->
  Command_spawn deno "mail" (mail_args options) = Returned tt ->
  Deno_readTextFile deno tempFile = Returned fileContent ->
  stdin_write deno fileContent = Returned tt ->
  stdin_close deno = Returned tt ->
  process_output deno = Returned (code, errorOutput) ->
  Deno_remove deno tempFile = Returned tt ->
  sendSmtpEmail deno options s
  = mkRes s
      ([ MakeTempFile;
         WriteTextFile tempFile (opt_or (o_html options) (o_text options));
         CommandSpawn "mail" (mail_args options);
         ReadTextFile tempFile;
         StdinWrite fileContent;
         StdinClose;
         ProcessOutput ]
         ++ (if (code =? 0)%N
             then [ConsoleLog ("Mail sent to " ++ o_to options
                                 ++ " via system mail command")]
             else [])
         ++ [Remove tempFile])%list
      (if (code =? 0)%N then Returned tt
       else Thrown (new_Error ("Mail command failed with code "
                                 ++ N_toString code ++ ": " ++ errorOutput))).
Proof.
  intros Hmk Hwr Hsp Hrd Hin Hcl Hout Hrm.
  assert (Htry :
    sendSmtpEmail_try deno options tempFile s
    = mkRes s
        ([ WriteTextFile tempFile (opt_or (o_html options) (o_text options));
           CommandSpawn "mail" (mail_args options);
           ReadTextFile tempFile; StdinWrite fileContent; StdinClose; ProcessOutput ]
           ++ (if (code =? 0)%N
               then [ConsoleLog ("Mail sent to " ++ o_to options
                                   ++ " via system mail command")]
               else []))%list
        (if (code =? 0)%N then Returned tt
         else Thrown (new_Error ("Mail command failed with code "
                                   ++ N_toString code ++ ": " ++ errorOutput)))).
  { unfold sendSmtpEmail_try. cbv zeta. unfold mail_args in Hsp.
    destruct (code =? 0)%N eqn:Hcode.
    - eapply run_eq;
        [ do 6 run_step; cbn [fst snd]; rewrite Hcode; cbn [negb when]; run
        | reflexivity | reflexivity ].
    - eapply run_eq;
        [ do 6 run_step; cbn [fst snd]; rewrite Hcode; cbn [negb when]; run
        | reflexivity | reflexivity ]. }
  rewrite (sendSmtpEmail_run options s Hmk), Htry, Hrm. cbn [trace result].
  destruct (code =? 0)%N; reflexivity.
Qed.

End MailRelay.

(** X8. A temporary file that cannot be removed does not fail the delivery:
    the error of [Deno.remove] is written to the error log and the outcome
    of [sendSmtpEmail] is the one it has when the removal succeeds. *)
Theorem sendSmtpEmail_remove_failure {number : Type} {S : Type} (deno : Deno number)
        (options : SmtpOptions number) (s : S) (tempFile : string) (e : error) :
  Deno_makeTempFile deno = Returned tempFile ->
  Deno_remove deno tempFile = Thrown e ->
  In (ConsoleError "Error removing temp file:" e) (trace (sendSmtpEmail deno options s)) /\
  result (sendSmtpEmail deno options s)
  = result (sendSmtpEmail (with_remove deno (fun _ => Returned tt)) options s).
Proof.
  intros Hmk Hrm.
  rewrite (sendSmtpEmail_run deno options s Hmk).
  rewrite (sendSmtpEmail_run (with_remove deno (fun _ => Returned tt)) options s
                             (tempFile:=tempFile) Hmk).
  cbn [trace result]. rewrite Hrm. split.
  - right. apply in_or_app. right. right. left. reflexivity.
  - reflexivity.
Qed.

(* ================================================================= *)
(** ** Further properties of the Notifier *)

Section NotifierMore.

Context {number : Type} {JSN : JSNumber number}.
Variable deno : Deno number.

Implicit Types (config : Config number) (stockInfo : StockResponse number).

Lemma storesWithStock_length stockInfo :
  storesWithStock stockInfo <> [] ->
  Nat.eqb (length (storesWithStock stockInfo)) 0 = false.
Proof. destruct (storesWithStock stockInfo); [contradiction | reflexivity]. Qed.

(** The console branch prints its seven lines and returns. *)
Lemma console_branch_run {S} config stockInfo (s : S) :
  console_branch config stockInfo s
  = mkRes s (console_notification config stockInfo) (Returned tt).
Proof.
  unfold console_branch. eapply run_eq; [run | reflexivity | reflexivity].
Qed.

(** The sender always carries a display name: the one configured if it is
    not empty, the default one otherwise. *)
Lemma smtp_sender_named config :
  smtp_sender config
  = opt_or (fromName (emailConfig config)) "Canadian Tire Stock Checker"
      ++ " <" ++ fromEmail (emailConfig config) ++ ">".
Proof.
  unfold smtp_sender. cbv zeta.
  destruct (fromName (emailConfig config)) as [[|c n]|]; reflexivity.
Qed.

(** The validation of main.ts 263-265 fails. *)
Lemma smtp_branch_invalid {S} config stockInfo (s : S) :
  negb (opt_truthy (host (emailConfig config)))
  || negb (num_opt_truthy (port (emailConfig config))) = true ->
  smtp_branch deno config stockInfo s = mkRes s [] (Thrown EmailConfigError) /\
  smtp_branch_part000 deno config stockInfo s = mkRes s [] (Thrown EmailConfigError).
Proof.
  intros Hcheck. unfold smtp_branch, smtp_branch_part000. cbv zeta.
  rewrite Hcheck. cbn [when].
  split; eapply run_bind_thrown; apply run_throw.
Qed.

(** The SMTP branch with a host and a port: the relay is called once, and
    its failure is logged and wrapped. *)
Lemma smtp_branch_run {S} config stockInfo (s : S) :
  opt_truthy (host (emailConfig config)) = true ->
  num_opt_truthy (port (emailConfig config)) = true ->
  smtp_branch deno config stockInfo s
  = mkRes s
      (ConsoleLog ("Sending email notification to " ++ email config ++ " via SMTP...")
         :: trace (sendSmtpEmail deno (smtp_options config stockInfo) s)
         ++ match result (sendSmtpEmail deno (smtp_options config stockInfo) s) with
            | Returned _ =>
                [ConsoleLog ("Email notification sent to " ++ email config
                               ++ " successfully")]
            | Thrown cause => [ConsoleError "SMTP error:" cause]
            end)%list
      (match result (sendSmtpEmail deno (smtp_options config stockInfo) s) with
       | Returned _ => Returned tt
       | Thrown cause => Thrown (EmailDeliveryError cause)
       end).
Proof.
  intros Hhost Hport.
  destruct (@sendSmtpEmail_stateless _ deno S (smtp_options config stockInfo))
    as (t & r & Hrelay).
  rewrite Hrelay. cbn [trace result].
  unfold smtp_branch. cbv zeta. rewrite Hhost, Hport. cbn [negb orb when].
  destruct r as [[]|cause].
  - eapply run_eq.
    + do 2 run_step. eapply run_try_catch_returned.
      eapply run_bind; [apply Hrelay | cbv beta; run_call].
    + reflexivity.
    + reflexivity.
  - eapply run_eq.
    + do 2 run_step. eapply run_try_catch_thrown.
      * eapply run_bind_thrown. apply Hrelay.
      * run.
    + reflexivity.
    + reflexivity.
Qed.

(** X10. In any delivery mode other than [smtp] (the documented [console],
    but also any other provider name, the [sendgrid] of the script's own
    hint included), a snapshot with stock is printed: the Notifier writes
    the seven lines of the console notification, with the recipient, the
    subject and the plain-text body, and calls nothing but the console.
    Both versions of the script behave so. *)
Theorem sendNotification_console_mode config stockInfo :
  provider (emailConfig config) <> "smtp" ->
  storesWithStock stockInfo <> [] ->
  sendNotification deno (config, stockInfo)
  = mkRes (config, stockInfo) (console_notification config stockInfo) (Returned tt)
  /\
  sendNotification_part000 deno (config, stockInfo)
  = mkRes (config, stockInfo) (console_notification config stockInfo) (Returned tt).
Proof.
  intros Hprovider Hstock.
  apply String.eqb_neq in Hprovider. apply storesWithStock_length in Hstock.
  unfold sendNotification, sendNotification_part000.
  rewrite !sendNotification_with_in_stock by assumption.
  split; eapply run_try_catch_returned; unfold sendNotification_try;
    rewrite Hprovider; apply console_branch_run.
Qed.

(** X11. The plain-text body and the HTML body of a notification hold the
    same information: both contain the product name (the SKU when there is
    none), the whole store-list summary, and the same address, built from
    the configured stores and the SKU of the snapshot. *)
Theorem bodies_hold_same_information config stockInfo :
  let shown := opt_or (sr_name stockInfo) (sr_sku stockInfo) in
  let address := html_href config stockInfo in
  (Substring shown (plainTextContent config stockInfo) /\
   Substring shown (htmlContent config stockInfo)) /\
  (Substring (storeList stockInfo) (plainTextContent config stockInfo) /\
   Substring (storeList stockInfo) (htmlContent config stockInfo)) /\
  (Substring address (plainTextContent config stockInfo) /\
   Substring address (htmlContent config stockInfo)).
Proof.
  cbv zeta. unfold plainTextContent, htmlContent, html_href.
  repeat split.
  - do 6 apply Substring_append_r. apply Substring_append_l, Substring_refl.
  - do 4 apply Substring_append_r. apply Substring_append_l, Substring_refl.
  - do 12 apply Substring_append_r. apply Substring_append_l, Substring_refl.
  - do 8 apply Substring_append_r. apply Substring_append_l, Substring_refl.
  - eexists (nl ++ "      Stock Alert!" ++ nl ++ "      " ++ nl
               ++ "      The item you're tracking ("
               ++ opt_or (sr_name stockInfo) (sr_sku stockInfo)
               ++ ") is now in stock at the following Canadian Tire locations:" ++ nl
               ++ "      " ++ nl ++ "      " ++ storeList stockInfo ++ nl
               ++ "      " ++ nl ++ "      Check it out at: "), (nl ++ "    ").
    repeat (rewrite !append_assoc'; cbn [append]). reflexivity.
  - do 13 apply Substring_append_r. apply Substring_append_l, Substring_refl.
Qed.

(** X12. In delivery mode [smtp], a host that is the empty string or a
    port that is 0 counts as missing: the Notifier fails with
    [EmailConfigError] before any call into the platform, logs it and
    returns, in both versions of the script. *)
Theorem sendNotification_smtp_empty_host config stockInfo :
  provider (emailConfig config) = "smtp" ->
  host (emailConfig config) = Some EmptyString \/
  port (emailConfig config) = Some num_zero ->
  storesWithStock stockInfo <> [] ->
  sendNotification deno (config, stockInfo)
  = mkRes (config, stockInfo)
          [ConsoleError "Error sending notification:" EmailConfigError]
          (Returned tt)
  /\
  sendNotification_part000 deno (config, stockInfo)
  = mkRes (config, stockInfo)
          [ConsoleError "Error sending notification:" EmailConfigError]
          (Returned tt).
Proof.
  intros Hsmtp Hempty Hstock. apply storesWithStock_length in Hstock.
  assert (Hcheck : negb (opt_truthy (host (emailConfig config)))
                   || negb (num_opt_truthy (port (emailConfig config))) = true).
  { destruct Hempty as [-> | ->]; simpl; [reflexivity|].
    rewrite num_zero_truthy. apply orb_true_r. }
  destruct (smtp_branch_invalid config stockInfo (config, stockInfo) Hcheck)
    as [Hmain Hearlier].
  unfold sendNotification, sendNotification_part000.
  rewrite !sendNotification_with_in_stock by assumption.
  split.
  - eapply run_eq.
    + eapply run_try_catch_thrown; [|run_call].
      unfold sendNotification_try. rewrite Hsmtp, String.eqb_refl. exact Hmain.
    + reflexivity.
    + reflexivity.
  - eapply run_eq.
    + eapply run_try_catch_thrown; [|run_call].
      unfold sendNotification_try. rewrite Hsmtp, String.eqb_refl. exact Hearlier.
    + reflexivity.
    + reflexivity.
Qed.

(** X13. With a host and a port, the Notifier of main.ts calls the relay
    once and returns, whatever the relay does: a delivery is reported on
    the console; a failure is logged as an SMTP error, wrapped into an
    [EmailDeliveryError] that quotes it, logged again, and not retried. *)
Theorem sendNotification_smtp_delivery config stockInfo :
  provider (emailConfig config) = "smtp" ->
  opt_truthy (host (emailConfig config)) = true ->
  num_opt_truthy (port (emailConfig config)) = true ->
  storesWithStock stockInfo <> [] ->
  sendNotification deno (config, stockInfo)
  = mkRes (config, stockInfo)
      (ConsoleLog ("Sending email notification to " ++ email config ++ " via SMTP...")
         :: trace (sendSmtpEmail deno (smtp_options config stockInfo) (config, stockInfo))
         ++ match result (sendSmtpEmail deno (smtp_options config stockInfo)
                                        (config, stockInfo)) with
            | Returned _ =>
                [ConsoleLog ("Email notification sent to " ++ email config
                               ++ " successfully")]
            | Thrown cause =>
                [ConsoleError "SMTP error:" cause;
                 ConsoleError "Error sending notification:" (EmailDeliveryError cause)]
            end)%list
      (Returned tt).
Proof.
  intros Hsmtp Hhost Hport Hstock. apply storesWithStock_length in Hstock.
  pose proof (smtp_branch_run config stockInfo (config, stockInfo) Hhost Hport) as Hrun.
  unfold sendNotification.
  rewrite sendNotification_with_in_stock by assumption.
  destruct (result (sendSmtpEmail deno (smtp_options config stockInfo) (config, stockInfo)))
    as [[]|cause].
  - eapply run_eq.
    + eapply run_try_catch_returned.
      unfold sendNotification_try. rewrite Hsmtp, String.eqb_refl. exact Hrun.
    + reflexivity.
    + reflexivity.
  - eapply run_eq.
    + eapply run_try_catch_thrown; [|run_call].
      unfold sendNotification_try. rewrite Hsmtp, String.eqb_refl. exact Hrun.
    + cbn [app]. now rewrite <- app_assoc.
    + reflexivity.
Qed.

End NotifierMore.

(* ================================================================= *)
(** ** What the Notifier calls *)

Lemma bind_trace_prefix {S A B} (m : M S A) (k : A -> M S B) (s : S) :
  exists rest, trace (bind m k s) = (trace (m s) ++ rest)%list.
Proof.
  unfold bind. destruct (result (m s)); eexists; cbn [trace];
    [reflexivity | symmetry; apply app_nil_r].
Qed.

Lemma bind_trace_returned {S A B} (m : M S A) (k : A -> M S B) (s : S) (a : A) :
  result (m s) = Returned a ->
  trace (bind m k s) = (trace (m s) ++ trace (k a (final (m s))))%list.
Proof. unfold bind. now intros ->. Qed.

Section NotifierCalls.

Context {number : Type} {JSN : JSNumber number}.
Variable deno : Deno number.

Implicit Types (config : Config number) (stockInfo : StockResponse number).

Lemma smtp_branch_stateless {S} config stockInfo :
  stateless (@smtp_branch _ _ deno S config stockInfo).
Proof.
  unfold smtp_branch. cbv zeta. unfold console_log, console_error.
  repeat first
    [ apply sendSmtpEmail_stateless
    | apply stateless_ret | apply stateless_throw | apply stateless_platform
    | apply stateless_when | apply stateless_try_catch | apply stateless_bind
    | intros ? | progress cbv beta zeta ].
Qed.

Lemma smtp_branch_part000_stateless {S} config stockInfo :
  stateless (@smtp_branch_part000 _ _ deno S config stockInfo).
Proof. unfold smtp_branch_part000. stateless_tac. Qed.

Lemma console_branch_stateless {S} config stockInfo :
  stateless (@console_branch _ _ S config stockInfo).
Proof. unfold console_branch. stateless_tac. Qed.

(** The Notifier hands back the configuration and the snapshot it was
    given. *)
Lemma sendNotification_with_final smtp config stockInfo :
  (forall c i, stateless (smtp c i)) ->
  final (sendNotification_with smtp (config, stockInfo)) = (config, stockInfo).
Proof.
  intros Hsmtp.
  destruct (Nat.eqb (length (storesWithStock stockInfo)) 0) eqn:Hlen.
  - unfold sendNotification_with, bind, get. simpl. now rewrite Hlen.
  - rewrite (sendNotification_with_in_stock _ _ _ Hlen).
    apply stateless_final, stateless_try_catch.
    + unfold sendNotification_try.
      destruct (provider (emailConfig config) =? "smtp")%string;
        [apply Hsmtp | apply console_branch_stateless].
    + intros e. apply stateless_platform.
Qed.

Lemma sendNotification_with_offline smtp config stockInfo :
  (forall c i, emits (fun ev => negb (is_network ev)) (smtp c i)) ->
  forallb (fun ev => negb (is_network ev))
          (trace (sendNotification_with smtp (config, stockInfo))) = true.
Proof.
  intros Hsmtp.
  destruct (Nat.eqb (length (storesWithStock stockInfo)) 0) eqn:Hlen.
  - unfold sendNotification_with, bind, get. simpl. now rewrite Hlen.
  - rewrite (sendNotification_with_in_stock _ _ _ Hlen).
    apply emits_try_catch.
    + unfold sendNotification_try.
      destruct (provider (emailConfig config) =? "smtp")%string;
        [apply Hsmtp | unfold console_branch; emits_tac].
    + intros e. now apply emits_platform.
Qed.

Lemma smtp_branch_offline {S} config stockInfo :
  emits (fun ev => negb (is_network ev)) (@smtp_branch _ _ deno S config stockInfo).
Proof. unfold smtp_branch, sendSmtpEmail. emits_tac. Qed.

Lemma smtp_branch_part000_offline {S} config stockInfo :
  emits (fun ev => negb (is_network ev))
        (@smtp_branch_part000 _ _ deno S config stockInfo).
Proof. unfold smtp_branch_part000. emits_tac. Qed.

(** X14. The Notifier never talks to the stock service: whatever the
    configuration, the snapshot and the answers of the platform, no run of
    [sendNotification] sends a request or reads a response.  Both versions
    of the script behave so. *)
Theorem sendNotification_offline config stockInfo :
  forallb (fun ev => negb (is_network ev))
          (trace (sendNotification deno (config, stockInfo))) = true /\
  forallb (fun ev => negb (is_network ev))
          (trace (sendNotification_part000 deno (config, stockInfo))) = true.
Proof.
  split; apply sendNotification_with_offline; intros c i;
    [apply smtp_branch_offline | apply smtp_branch_part000_offline].
Qed.

(** The first calls of the relay once the HTML body is on file. *)
Lemma sendSmtpEmail_try_prefix {S} (options : SmtpOptions number)
      (tempFile : string) (s : S) :
  Deno_writeTextFile deno tempFile (opt_or (o_html options) (o_text options))
  = Returned tt ->
  exists rest,
    trace (sendSmtpEmail_try deno options tempFile s)
    = (WriteTextFile tempFile (opt_or (o_html options) (o_text options))
         :: CommandSpawn "mail" (mail_args options) :: rest)%list.
Proof.
  intros Hwr. unfold sendSmtpEmail_try. cbv zeta.
  erewrite bind_trace_returned
    by (unfold platform; cbn [result]; exact Hwr).
  cbn [platform trace final app].
  match goal with
  | |- context [trace (bind ?m ?k ?s0)] =>
      destruct (bind_trace_prefix m k s0) as (rest & ->)
  end.
  exists rest. reflexivity.
Qed.

(** X15. In delivery mode [smtp], what the Notifier of main.ts puts on file
    for the relay is always the HTML body, never the plain-text one, and
    the [mail] command is run with the subject, a [From] header that
    always carries a display name (the configured one, or
    [Canadian Tire Stock Checker] when none is set or it is empty), the
    HTML content type and the destination address. *)
Theorem sendNotification_hands_html_to_relay config stockInfo (tempFile : string) :
  provider (emailConfig config) = "smtp" ->
  opt_truthy (host (emailConfig config)) = true ->
  num_opt_truthy (port (emailConfig config)) = true ->
  storesWithStock stockInfo <> [] ->
  Deno_makeTempFile deno = Returned tempFile ->
  Deno_writeTextFile deno tempFile (htmlContent config stockInfo) = Returned tt ->
  exists rest,
    trace (sendNotification deno (config, stockInfo))
    = ConsoleLog ("Sending email notification to " ++ email config ++ " via SMTP...")
        :: MakeTempFile
        :: WriteTextFile tempFile (htmlContent config stockInfo)
        :: CommandSpawn "mail"
             [ "-s"; subject stockInfo;
               "-a"; "From: " ++ opt_or (fromName (emailConfig config))
                                        "Canadian Tire Stock Checker"
                       ++ " <" ++ fromEmail (emailConfig config) ++ ">";
               "-a"; "Content-Type: text/html";
               email config ]
        :: rest.
Proof.
  intros Hsmtp Hhost Hport Hstock Hmk Hwr. apply storesWithStock_length in Hstock.
  pose proof (smtp_branch_run deno config stockInfo (config, stockInfo) Hhost Hport) as Hrun.
  rewrite (sendSmtpEmail_run deno (smtp_options config stockInfo) (config, stockInfo) Hmk)
    in Hrun.
  cbn [trace result] in Hrun.
  destruct (@sendSmtpEmail_try_prefix (Config number * StockResponse number)
              (smtp_options config stockInfo) tempFile (config, stockInfo) Hwr)
    as (rest & Hprefix).
  rewrite Hprefix in Hrun.
  unfold mail_args in Hrun. cbn [smtp_options o_subject o_from o_to o_html o_text opt_or] in Hrun.
  rewrite smtp_sender_named in Hrun.
  unfold sendNotification.
  rewrite sendNotification_with_in_stock by assumption.
  unfold try_catch, sendNotification_try. rewrite Hsmtp, String.eqb_refl, Hrun.
  cbn [result].
  destruct (result (sendSmtpEmail_try deno (smtp_options config stockInfo) tempFile
                                      (config, stockInfo)));
    cbn [trace final]; eexists; cbn [app]; reflexivity.
Qed.

End NotifierCalls.

(* ================================================================= *)
(** ** SMTP settings, the earlier version, and the cycle *)

Section ServerSettings.

Context {number : Type} {JSN : JSNumber number}.
Variable deno : Deno number.

Implicit Types (config : Config number) (stockInfo : StockResponse number).

Lemma sendNotification_with_skip smtp config stockInfo :
  Nat.eqb (length (storesWithStock stockInfo)) 0 = true ->
  sendNotification_with smtp (config, stockInfo)
  = mkRes (config, stockInfo)
          [ConsoleLog "No stock available, skipping notification"] (Returned tt).
Proof.
  intros Hlen. unfold sendNotification_with, bind, get. simpl. now rewrite Hlen.
Qed.

(** X16. The SMTP server settings are checked and then never used: with
    any two choices of host, port, user name and password (host and port
    present and truthy), the Notifier of main.ts makes the same calls with
    the same arguments and ends the same way.  Delivery goes through the
    local [mail] command, whatever server is configured. *)
Theorem sendNotification_ignores_server config stockInfo
        (host1 host2 : option string) (port1 port2 : option number)
        (user1 user2 password1 password2 : option string) :
  opt_truthy host1 = true -> num_opt_truthy port1 = true ->
  opt_truthy host2 = true -> num_opt_truthy port2 = true ->
  trace (sendNotification deno
           (with_server config host1 port1 user1 password1, stockInfo))
  = trace (sendNotification deno
             (with_server config host2 port2 user2 password2, stockInfo))
  /\
  result (sendNotification deno
            (with_server config host1 port1 user1 password1, stockInfo))
  = result (sendNotification deno
              (with_server config host2 port2 user2 password2, stockInfo)).
Proof.
  intros Hh1 Hp1 Hh2 Hp2.
  set (c1 := with_server config host1 port1 user1 password1).
  set (c2 := with_server config host2 port2 user2 password2).
  unfold sendNotification.
  destruct (Nat.eqb (length (storesWithStock stockInfo)) 0) eqn:Hlen.
  - now rewrite !sendNotification_with_skip by assumption.
  - rewrite !sendNotification_with_in_stock by assumption.
    unfold try_catch, sendNotification_try.
    change (provider (emailConfig c1)) with (provider (emailConfig config)).
    change (provider (emailConfig c2)) with (provider (emailConfig config)).
    destruct (provider (emailConfig config) =? "smtp")%string.
    + rewrite (smtp_branch_run deno c1 stockInfo (c1, stockInfo) Hh1 Hp1).
      rewrite (smtp_branch_run deno c2 stockInfo (c2, stockInfo) Hh2 Hp2).
      assert (Hsame : @sendSmtpEmail _ deno (Config number * StockResponse number)
                                     (smtp_options c1 stockInfo)
                      = sendSmtpEmail deno (smtp_options c2 stockInfo))
        by (apply sendSmtpEmail_fields; reflexivity).
      rewrite Hsame.
      destruct (stateless_same (c1, stockInfo) (c2, stockInfo)
                  (@sendSmtpEmail_stateless _ deno (Config number * StockResponse number)
                                            (smtp_options c2 stockInfo)))
        as [-> ->].
      cbn [result trace final].
      change (email c1) with (email config). change (email c2) with (email config).
      destruct (result (sendSmtpEmail deno (smtp_options c2 stockInfo) (c2, stockInfo)));
        cbn [result trace final]; split; reflexivity.
    + rewrite !console_branch_run. cbn [result trace]. split; reflexivity.
Qed.

(** X17. The earlier version of the script removes its temporary file only
    after the [mail] command has run, and before it looks at the exit code:
    when the command has run, the file is removed and the exit code
    decides between a delivery and a logged [EmailDeliveryError]. *)
Theorem sendNotification_part000_command_ran config stockInfo
        (code : N) (errorOutput : string) :
  provider (emailConfig config) = "smtp" ->
  opt_truthy (host (emailConfig config)) = true ->
  num_opt_truthy (port (emailConfig config)) = true ->
  storesWithStock stockInfo <> [] ->
  Deno_writeTextFile deno (part000_tempFileName deno)
                     (part000_emailContent config stockInfo) = Returned tt ->
  Command_output deno "mail" ["-t"; "<"; part000_tempFileName deno]
  = Returned (code, errorOutput) ->
  Deno_remove deno (part000_tempFileName deno) = Returned tt ->
  sendNotification_part000 deno (config, stockInfo)
  = mkRes (config, stockInfo)
      ([ ConsoleLog ("Sending email notification to " ++ email config ++ " via SMTP...");
         WriteTextFile (part000_tempFileName deno) (part000_emailContent config stockInfo);
         CommandOutput "mail" ["-t"; "<"; part000_tempFileName deno];
         Remove (part000_tempFileName deno) ]
         ++ if (code =? 0)%N
            then [ConsoleLog ("Email notification sent to " ++ email config
                                ++ " successfully")]
            else [ConsoleError "Email error:"
                    (new_Error ("Mail command failed: " ++ errorOutput));
                  ConsoleError "Error sending notification:"
                    (EmailDeliveryError
                       (new_Error ("Mail command failed: " ++ errorOutput)))])%list
      (Returned tt).
Proof.
  intros Hsmtp Hhost Hport Hstock Hwr Hout Hrm. apply storesWithStock_length in Hstock.
  unfold part000_tempFileName, part000_emailContent in *. cbv zeta in Hwr.
  unfold sendNotification_part000.
  rewrite sendNotification_with_in_stock by assumption.
  unfold sendNotification_try. rewrite Hsmtp, String.eqb_refl.
  unfold smtp_branch_part000. cbv zeta. rewrite Hhost, Hport. cbn [negb orb when].
  destruct (code =? 0)%N eqn:Hcode.
  - eapply run_eq.
    + eapply run_try_catch_returned. do 2 run_step.
      eapply run_try_catch_returned. do 3 run_step.
      cbn [fst snd]. rewrite Hcode. cbn [negb when]. run.
    + reflexivity.
    + reflexivity.
  - eapply run_eq.
    + eapply run_try_catch_thrown; [|run_call]. do 2 run_step.
      eapply run_try_catch_thrown.
      * do 3 run_step. cbn [fst snd]. rewrite Hcode. cbn [negb when]. run.
      * run.
    + reflexivity.
    + reflexivity.
Qed.

(** X18. In the earlier version, when the [mail] command cannot be run at
    all, the temporary file is left behind: the error is logged and
    wrapped as an [EmailDeliveryError], and nothing is removed.  (The
    [finally] block of main.ts closes this gap.) *)
Theorem sendNotification_part000_leaves_file config stockInfo (e : error) :
  provider (emailConfig config) = "smtp" ->
  opt_truthy (host (emailConfig config)) = true ->
  num_opt_truthy (port (emailConfig config)) = true ->
  storesWithStock stockInfo <> [] ->
  Deno_writeTextFile deno (part000_tempFileName deno)
                     (part000_emailContent config stockInfo) = Returned tt ->
  Command_output deno "mail" ["-t"; "<"; part000_tempFileName deno] = Thrown e ->
  sendNotification_part000 deno (config, stockInfo)
  = mkRes (config, stockInfo)
      [ ConsoleLog ("Sending email notification to " ++ email config ++ " via SMTP...");
        WriteTextFile (part000_tempFileName deno) (part000_emailContent config stockInfo);
        CommandOutput "mail" ["-t"; "<"; part000_tempFileName deno];
        ConsoleError "Email error:" e;
        ConsoleError "Error sending notification:" (EmailDeliveryError e) ]
      (Returned tt)
  /\
  filter is_Remove (trace (sendNotification_part000 deno (config, stockInfo))) = [].
Proof.
  intros Hsmtp Hhost Hport Hstock Hwr Hout. apply storesWithStock_length in Hstock.
  unfold part000_tempFileName, part000_emailContent in *. cbv zeta in Hwr.
  assert (Hrun :
    sendNotification_part000 deno (config, stockInfo)
    = mkRes (config, stockInfo)
        [ ConsoleLog ("Sending email notification to " ++ email config ++ " via SMTP...");
          WriteTextFile ("/tmp/stock_alert_" ++ N_toString (Date_now deno) ++ ".txt")
            ("Subject: " ++ subject stockInfo ++ nl
               ++ "From: " ++ opt_or (fromName (emailConfig config))
                                     "Canadian Tire Stock Checker"
               ++ " <" ++ fromEmail (emailConfig config) ++ ">" ++ nl
               ++ "To: " ++ email config ++ nl
               ++ "Content-Type: text/html" ++ nl ++ nl
               ++ htmlContent config stockInfo);
          CommandOutput "mail"
            ["-t"; "<"; "/tmp/stock_alert_" ++ N_toString (Date_now deno) ++ ".txt"];
          ConsoleError "Email error:" e;
          ConsoleError "Error sending notification:" (EmailDeliveryError e) ]
        (Returned tt)).
  { unfold sendNotification_part000.
    rewrite sendNotification_with_in_stock by assumption.
    unfold sendNotification_try. rewrite Hsmtp, String.eqb_refl.
    unfold smtp_branch_part000. cbv zeta. rewrite Hhost, Hport. cbn [negb orb when].
    eapply run_eq.
    - eapply run_try_catch_thrown; [|run_call]. do 2 run_step.
      eapply run_try_catch_thrown; [|run]. run.
    - reflexivity.
    - reflexivity. }
  rewrite Hrun. split; reflexivity.
Qed.

End ServerSettings.

(* ================================================================= *)
(** ** The cycle (runCheck) *)

Section Cycle.

Context {number : Type} {JSN : JSNumber number}.
Variable deno : Deno number.

Implicit Types (config : Config number) (stockInfo : StockResponse number).

(** [stores.some(...)] of main.ts 352 and the filter of main.ts 218 agree. *)
Lemma hasStock_storesWithStock stockInfo :
  existsb (fun s => num_gt0 (quantity s)) (sr_stores stockInfo)
  = negb (Nat.eqb (length (storesWithStock stockInfo)) 0).
Proof.
  unfold storesWithStock.
  induction (sr_stores stockInfo) as [|entry entries IH]; [reflexivity|].
  simpl. destruct (num_gt0 (quantity entry)); [reflexivity | exact IH].
Qed.

Lemma checkStock_fetches_once config :
  filter is_Fetch (trace (checkStock deno config))
  = [Fetch (checkStock_url config) headers].
Proof.
  destruct (fetch deno (checkStock_url config) headers) as [response|e] eqn:Hf.
  - destruct (Response_ok response) eqn:Hok.
    + destruct (json_body response) as [body|e] eqn:Hb.
      * now rewrite (checkStock_success deno config Hf Hok Hb).
      * now rewrite (checkStock_decode_fails deno config Hf Hok Hb).
    + now rewrite (checkStock_bad_status deno config Hf Hok).
  - now rewrite (checkStock_fetch_fails deno config Hf).
Qed.

(** The whole run of a cycle. *)
Lemma runCheck_run config :
  runCheck deno config
  = mkRes config
      (ConsoleLog ("Checking stock at " ++ Date_toLocaleString deno ++ "...")
         :: trace (checkStock deno config)
         ++ match result (checkStock deno config) with
            | Thrown e => [ConsoleError "Error running stock check:" e]
            | Returned stockInfo =>
                runCheck_report stockInfo
                ++ if Nat.eqb (length (storesWithStock stockInfo)) 0
                   then [ConsoleLog "No stock available at any store."]
                   else ConsoleLog "Stock found! Sending notification..."
                          :: trace (sendNotification deno (config, stockInfo))
            end)%list
      (Returned tt).
Proof.
  pose proof (checkStock_final deno config) as Hfinal.
  destruct (checkStock deno config) as [config' t r] eqn:Hcheck.
  cbn [final trace result] in *. subst config'.
  unfold runCheck. destruct r as [stockInfo|e].
  - destruct (Nat.eqb (length (storesWithStock stockInfo)) 0) eqn:Hlen.
    + eapply run_eq.
      * eapply run_try_catch_returned. run_step.
        eapply run_bind; [exact Hcheck | cbv beta]. run_step.
        eapply run_bind; [apply for_of_console_log | cbv beta zeta].
        rewrite hasStock_storesWithStock, Hlen. cbn [negb]. run_call.
      * unfold runCheck_report. cbn [app]. now rewrite <- ?app_assoc.
      * reflexivity.
    + pose proof (sendNotification_with_returns (smtp_branch deno) config stockInfo)
        as Hreturns.
      pose proof (@sendNotification_with_final _ _ (smtp_branch deno) config stockInfo
                    (fun c i => smtp_branch_stateless deno c i)) as Hkeeps.
      fold (sendNotification deno) in Hreturns, Hkeeps.
      destruct (sendNotification deno (config, stockInfo)) as [s' tn rn] eqn:Hnotify.
      cbn [final trace result] in *. subst s' rn.
      eapply run_eq.
      * eapply run_try_catch_returned. run_step.
        eapply run_bind; [exact Hcheck | cbv beta]. run_step.
        eapply run_bind; [apply for_of_console_log | cbv beta zeta].
        rewrite hasStock_storesWithStock, Hlen. cbn [negb]. run_step.
        unfold call_with. rewrite Hnotify. reflexivity.
      * unfold runCheck_report. cbn [app]. now rewrite <- ?app_assoc.
      * reflexivity.
  - eapply run_eq.
    + eapply run_try_catch_thrown; [|run_call]. run_step.
      eapply run_bind_thrown. exact Hcheck.
    + cbn [app]. now rewrite <- ?app_assoc.
    + reflexivity.
Qed.

(** X19. A check that fails does not end the cycle abnormally: [runCheck]
    writes the error to the error log, prints no stock information, does
    not call the Notifier, and returns, so that the next cycle can run. *)
Theorem runCheck_check_fails config (e : error) :
  result (checkStock deno config) = Thrown e ->
  runCheck deno config
  = mkRes config
      (ConsoleLog ("Checking stock at " ++ Date_toLocaleString deno ++ "...")
         :: trace (checkStock deno config)
         ++ [ConsoleError "Error running stock check:" e])%list
      (Returned tt).
Proof. intros Hr. now rewrite runCheck_run, Hr. Qed.

(** X20. After a successful check, the cycle prints one line per entry of
    the snapshot and then calls the Notifier exactly when some entry has a
    positive quantity; the Notifier then goes straight to its [try] block,
    so that its own stock test never finds the list empty. *)
Theorem runCheck_notifies_iff_stock config stockInfo :
  result (checkStock deno config) = Returned stockInfo ->
  (storesWithStock stockInfo = [] ->
   trace (runCheck deno config)
   = (ConsoleLog ("Checking stock at " ++ Date_toLocaleString deno ++ "...")
        :: trace (checkStock deno config)
        ++ runCheck_report stockInfo
        ++ [ConsoleLog "No stock available at any store."])%list)
  /\
  (storesWithStock stockInfo <> [] ->
   trace (runCheck deno config)
   = (ConsoleLog ("Checking stock at " ++ Date_toLocaleString deno ++ "...")
        :: trace (checkStock deno config)
        ++ runCheck_report stockInfo
        ++ ConsoleLog "Stock found! Sending notification..."
        :: trace (sendNotification deno (config, stockInfo)))%list
   /\
   sendNotification deno (config, stockInfo)
   = try_catch (sendNotification_try (smtp_branch deno) config stockInfo)
               (fun error => console_error "Error sending notification:" error)
               (config, stockInfo)).
Proof.
  intros Hr. rewrite runCheck_run, Hr. cbn [trace]. split.
  - now intros ->.
  - intros Hstock. apply storesWithStock_length in Hstock. rewrite Hstock.
    split; [reflexivity|].
    unfold sendNotification. now apply sendNotification_with_in_stock.
Qed.

(** X21. Every cycle sends exactly one request to the stock service,
    whatever the service answers and whatever the Notifier does. *)
Theorem runCheck_one_request config :
  filter is_Fetch (trace (runCheck deno config))
  = [Fetch (checkStock_url config) headers].
Proof.
  rewrite runCheck_run. cbn [trace filter is_Fetch].
  rewrite filter_app, checkStock_fetches_once.
  destruct (result (checkStock deno config)) as [stockInfo|e]; [|reflexivity].
  rewrite filter_app.
  assert (Hreport : filter is_Fetch (runCheck_report stockInfo) = []).
  { unfold runCheck_report. cbn [filter is_Fetch].
    induction (sr_stores stockInfo) as [|entry entries IH]; [reflexivity | exact IH]. }
  rewrite Hreport.
  destruct (Nat.eqb (length (storesWithStock stockInfo)) 0); [reflexivity|].
  cbn [app filter is_Fetch].
  rewrite filter_none; [reflexivity|].
  pose proof (@sendNotification_with_offline _ _ (smtp_branch deno) config stockInfo
                (fun c i => smtp_branch_offline deno c i)) as Hoffline.
  fold (sendNotification deno) in Hoffline.
  revert Hoffline. generalize (trace (sendNotification deno (config, stockInfo))).
  induction l as [|ev l IH]; [reflexivity|].
  cbn [forallb]. rewrite !andb_true_iff. intros [Hev Hl]. split; [|now apply IH].
  now destruct ev.
Qed.

(** X22. For a store in stock, the line the cycle prints is the line of the
    notification summary, indented by two spaces; for a store out of
    stock, the cycle prints the name and the quantity only, even when a
    price or a location is known. *)
Theorem runCheck_storeInfo_matches_summary (entry : StoreStock number) :
  (num_gt0 (quantity entry) = true ->
   runCheck_storeInfo entry = "  " ++ store_info entry) /\
  (num_gt0 (quantity entry) = false ->
   runCheck_storeInfo entry
   = "  " ++ opt_or (name entry) (store entry) ++ ": "
          ++ num_toString (quantity entry) ++ " in stock").
Proof.
  unfold runCheck_storeInfo, store_info. split; intros ->; [|reflexivity].
  destruct (price entry) as [p|]; [destruct (num_truthy p)|];
    (destruct (location entry) as [l|]; [destruct (str_truthy l)|]);
    reflexivity.
Qed.

End Cycle.

(* ================================================================= *)
(** ** The further properties on the scenarios *)

Import Outage.

(** The first end-to-end scenario: the check returns. *)
Lemma checkStock_returns_iff_widget :
  result (checkStock (endpoint [widget]) config)
  = Returned (parse_response config (Some [widget])).
Proof.
  apply (proj2 (@checkStock_returns_iff N Hundredths.number (endpoint [widget]) config
                  (parse_response config (Some [widget])))).
  exists (mkResponse 200 (Returned (Some [widget]))), (Some [widget]).
  repeat split; try reflexivity; cbn; lia.
Defined.

(** The network is down. *)
Lemma checkStock_fails_uniformly_network_down :
  StockCheckError = StockCheckError /\
  exists before cause,
    trace (checkStock network_down config)
    = (request_trace config ++ before
         ++ [ConsoleError "Error checking stock:" cause])%list /\
    ((fetch network_down (checkStock_url config) headers = Thrown cause /\ before = [])
     \/
     (exists response,
         fetch network_down (checkStock_url config) headers = Returned response /\
         (status response < 200 \/ 299 < status response)%N /\
         cause = new_Error ("HTTP error! status: " ++ N_toString (status response)) /\
         before = [])
     \/
     (exists response,
         fetch network_down (checkStock_url config) headers = Returned response /\
         (200 <= status response <= 299)%N /\
         json_body response = Thrown cause /\
         before = [ResponseJson])).
Proof.
  apply (@checkStock_fails_uniformly N Hundredths.number network_down config StockCheckError).
  reflexivity.
Defined.

(** The endpoint answers with a record for store 0999, which was not
    requested. *)
Lemma checkStock_entry_details_stranger :
  exists snapshot,
    result (checkStock (endpoint [stranger]) config) = Returned snapshot /\
    Forall2 (fun item entry =>
               name entry = Some ("Canadian Tire " ++ Store item) /\
               price entry = Some (Price item) /\
               match Location item with
               | Some place => location entry = Some (Aisle place)
               | None => location entry = None
               end)
            [stranger] (sr_stores snapshot).
Proof.
  apply (@checkStock_entry_details N Hundredths.number (endpoint [stranger]) config
           (mkResponse 200 (Returned (Some [stranger]))) stranger []);
    reflexivity.
Defined.

Lemma checkStock_trusts_response_stranger :
  exists snapshot,
    result (checkStock (endpoint [stranger]) config) = Returned snapshot /\
    map (@store N) (sr_stores snapshot) = map (@Store N) [stranger] /\
    (forall id, In id (stores config) ->
                ~ In id (map (@Store N) [stranger]) ->
                forall entry, In entry (sr_stores snapshot) -> store entry <> id) /\
    (forall item, In item [stranger] ->
                  exists entry, In entry (sr_stores snapshot) /\ store entry = Store item).
Proof.
  apply (@checkStock_trusts_response N Hundredths.number (endpoint [stranger]) config
           (mkResponse 200 (Returned (Some [stranger]))) stranger []);
    reflexivity.
Defined.

(** No temporary file can be made. *)
Lemma sendSmtpEmail_no_temp_file_denied :
  sendSmtpEmail no_temp_file (smtp_options (config_with smtp_settings) two_stores) tt
  = mkRes tt [MakeTempFile] (Thrown (mkError "PermissionDenied" "cannot create")).
Proof.
  apply (@sendSmtpEmail_no_temp_file N no_temp_file unit). reflexivity.
Defined.

(** The relay exits with code 1: the temporary file is removed all the
    same. *)
Lemma sendSmtpEmail_removes_temp_file_exit_1 :
  filter is_Remove
         (trace (sendSmtpEmail (relay_exits 1)
                               (smtp_options (config_with smtp_settings) two_stores) tt))
  = [Remove "/tmp/a1b2c3"] /\
  exists before after,
    trace (sendSmtpEmail (relay_exits 1)
                         (smtp_options (config_with smtp_settings) two_stores) tt)
    = (before ++ Remove "/tmp/a1b2c3" :: after)%list /\
    forallb is_console after = true.
Proof.
  apply (@sendSmtpEmail_removes_temp_file N (relay_exits 1) unit). reflexivity.
Defined.

(** The temporary file cannot be removed: the delivery still succeeds. *)
Lemma sendSmtpEmail_remove_failure_logged :
  In (ConsoleError "Error removing temp file:" (mkError "NotFound" "cannot remove"))
     (trace (sendSmtpEmail remove_fails
                           (smtp_options (config_with smtp_settings) two_stores) tt)) /\
  result (sendSmtpEmail remove_fails
                        (smtp_options (config_with smtp_settings) two_stores) tt)
  = result (sendSmtpEmail (with_remove remove_fails (fun _ => Returned tt))
                          (smtp_options (config_with smtp_settings) two_stores) tt).
Proof.
  apply (@sendSmtpEmail_remove_failure N unit remove_fails
           (smtp_options (config_with smtp_settings) two_stores) tt "/tmp/a1b2c3");
    reflexivity.
Defined.

(** The relay exits with code 1. *)
Lemma sendSmtpEmail_exit_code_1 :
  result (sendSmtpEmail (relay_exits 1)
                        (smtp_options (config_with smtp_settings) two_stores) tt)
  = Thrown (new_Error "Mail command failed with code 1: mail: cannot send").
Proof.
  rewrite (@sendSmtpEmail_exit_code N (relay_exits 1) unit
             (smtp_options (config_with smtp_settings) two_stores) tt
             "/tmp/a1b2c3" "<html>" "mail: cannot send" 1
             eq_refl eq_refl eq_refl eq_refl eq_refl eq_refl eq_refl eq_refl).
  reflexivity.
Defined.

(** Console mode, one store in stock. *)
Lemma sendNotification_console_mode_two_stores :
  sendNotification (endpoint []) (config, two_stores)
  = mkRes (config, two_stores) (console_notification config two_stores) (Returned tt)
  /\
  sendNotification_part000 (endpoint []) (config, two_stores)
  = mkRes (config, two_stores) (console_notification config two_stores) (Returned tt).
Proof.
  apply (@sendNotification_console_mode N Hundredths.number (endpoint []) config two_stores);
    [discriminate | vm_compute; discriminate].
Defined.

(** SMTP mode with an empty host and port 0. *)
Lemma sendNotification_smtp_empty_host_two_stores :
  sendNotification (endpoint []) (config_with smtp_empty_host, two_stores)
  = mkRes (config_with smtp_empty_host, two_stores)
          [ConsoleError "Error sending notification:" EmailConfigError] (Returned tt)
  /\
  sendNotification_part000 (endpoint []) (config_with smtp_empty_host, two_stores)
  = mkRes (config_with smtp_empty_host, two_stores)
          [ConsoleError "Error sending notification:" EmailConfigError] (Returned tt).
Proof.
  apply (@sendNotification_smtp_empty_host N Hundredths.number (endpoint [])
           (config_with smtp_empty_host) two_stores);
    [reflexivity | left; reflexivity | vm_compute; discriminate].
Defined.

(** SMTP mode, the relay exits with code 1. *)
Lemma sendNotification_smtp_delivery_exit_1 :
  result (sendNotification (relay_exits 1) (config_with smtp_settings, two_stores))
  = Returned tt /\
  In (ConsoleError "Error sending notification:"
        (EmailDeliveryError
           (new_Error "Mail command failed with code 1: mail: cannot send")))
     (trace (sendNotification (relay_exits 1) (config_with smtp_settings, two_stores))).
Proof.
  rewrite (@sendNotification_smtp_delivery N Hundredths.number (relay_exits 1)
             (config_with smtp_settings) two_stores);
    [ | reflexivity | reflexivity | reflexivity | vm_compute; discriminate ].
  split; [reflexivity|]. vm_compute. auto 20.
Defined.

(** SMTP mode, the relay delivers. *)
Lemma sendNotification_hands_html_to_relay_two_stores :
  exists rest,
    trace (sendNotification (relay_exits 0) (config_with smtp_settings, two_stores))
    = ConsoleLog "Sending email notification to me@example.org via SMTP..."
        :: MakeTempFile
        :: WriteTextFile "/tmp/a1b2c3" (htmlContent (config_with smtp_settings) two_stores)
        :: CommandSpawn "mail"
             [ "-s"; "Stock Alert: Widget Available at Canadian Tire";
               "-a"; "From: Canadian Tire Stock Checker <alerts@example.org>";
               "-a"; "Content-Type: text/html";
               "me@example.org" ]
        :: rest.
Proof.
  apply (@sendNotification_hands_html_to_relay N Hundredths.number (relay_exits 0)
           (config_with smtp_settings) two_stores "/tmp/a1b2c3");
    [reflexivity | reflexivity | reflexivity | vm_compute; discriminate
     | reflexivity | reflexivity].
Defined.

(** Another server and credentials: the same run. *)
Lemma sendNotification_ignores_server_other :
  trace (sendNotification (relay_exits 0)
           (with_server (config_with smtp_settings) (Some "localhost")
                        (Some (Hundredths.of_int 25)) None None, two_stores))
  = trace (sendNotification (relay_exits 0) (other_server, two_stores))
  /\
  result (sendNotification (relay_exits 0)
            (with_server (config_with smtp_settings) (Some "localhost")
                         (Some (Hundredths.of_int 25)) None None, two_stores))
  = result (sendNotification (relay_exits 0) (other_server, two_stores)).
Proof.
  apply (@sendNotification_ignores_server N Hundredths.number (relay_exits 0)
           (config_with smtp_settings) two_stores);
    reflexivity.
Defined.

(** The earlier version, the relay exits with code 1. *)
Lemma sendNotification_part000_command_ran_exit_1 :
  filter is_Remove
         (trace (sendNotification_part000 (relay_exits 1)
                                          (config_with smtp_settings, two_stores)))
  = [Remove "/tmp/stock_alert_1793613600000.txt"].
Proof.
  rewrite (@sendNotification_part000_command_ran N Hundredths.number (relay_exits 1)
             (config_with smtp_settings) two_stores 1 "mail: cannot send");
    [ reflexivity | reflexivity | reflexivity | reflexivity
    | vm_compute; discriminate | reflexivity | reflexivity | reflexivity ].
Defined.

(** The earlier version, no [mail] command. *)
Lemma sendNotification_part000_leaves_file_no_command :
  filter is_Remove
         (trace (sendNotification_part000 no_mail_command
                                          (config_with smtp_settings, two_stores)))
  = [].
Proof.
  apply (proj2 (@sendNotification_part000_leaves_file N Hundredths.number no_mail_command
                  (config_with smtp_settings) two_stores
                  (mkError "NotFound" "Failed to spawn 'mail'")
                  eq_refl eq_refl eq_refl
                  ltac:(vm_compute; discriminate) eq_refl eq_refl)).
Defined.

(** The network is down: the cycle logs the failure and returns. *)
Lemma runCheck_check_fails_network_down :
  runCheck network_down config
  = mkRes config
      (ConsoleLog ("Checking stock at " ++ Date_toLocaleString network_down ++ "...")
         :: trace (checkStock network_down config)
         ++ [ConsoleError "Error running stock check:" StockCheckError])%list
      (Returned tt).
Proof.
  apply (@runCheck_check_fails N Hundredths.number network_down config StockCheckError).
  reflexivity.
Defined.

(** The first end-to-end scenario: the Notifier is called. *)
Lemma runCheck_notifies_widget :
  trace (runCheck (endpoint [widget]) config)
  = (ConsoleLog ("Checking stock at " ++ Date_toLocaleString (endpoint [widget]) ++ "...")
       :: trace (checkStock (endpoint [widget]) config)
       ++ runCheck_report (parse_response config (Some [widget]))
       ++ ConsoleLog "Stock found! Sending notification..."
       :: trace (sendNotification (endpoint [widget])
                                  (config, parse_response config (Some [widget]))))%list
  /\
  sendNotification (endpoint [widget]) (config, parse_response config (Some [widget]))
  = try_catch (sendNotification_try (smtp_branch (endpoint [widget])) config
                                    (parse_response config (Some [widget])))
              (fun error => console_error "Error sending notification:" error)
              (config, parse_response config (Some [widget])).
Proof.
  apply (proj2 (@runCheck_notifies_iff_stock N Hundredths.number (endpoint [widget]) config
                  (parse_response config (Some [widget])) eq_refl)).
  vm_compute. discriminate.
Defined.

(** The widget at store 0459: the line of the cycle and the line of the
    summary. *)
Lemma runCheck_storeInfo_matches_summary_widget :
  runCheck_storeInfo (stock_of_item widget) = "  " ++ store_info (stock_of_item widget).
Proof.
  apply (proj1 (@runCheck_storeInfo_matches_summary N Hundredths.number
                  (stock_of_item widget))).
  reflexivity.
Defined.
